(** * WhatsApp FAQ chatbot: normalizer, answering path and escalation handlers

    A shallow embedding of [src/index.js].  JavaScript strings are sequences
    of UTF-16 code units, the values that flow through the handlers are JS
    values, exceptions are an explicit result type, and the objects the
    handlers mutate (the Dialogflow agent, the sheet client) are threaded as
    an explicit state.  Console output is not modelled. *)

From Stdlib Require Import ZArith NArith Ascii String Lia.
From stdpp Require Import base option list gmap strings.

Local Open Scope N_scope.

(** ** JavaScript strings and values *)

Module Js.

(** A string is a list of UTF-16 code units. *)
Definition jsstring : Type := list N.

(** An ASCII literal of the source, as code units. *)
Definition lit (s : string) : jsstring :=
  List.map N_of_ascii (list_ascii_of_string s).

Definition DQUOTE : jsstring := [34].
Definition NL : jsstring := [10].
Definition SPACE : N := 32.

(** The values a webhook parameter, a context parameter or a model response
    can hold.  Objects and arrays are all truthy and never strings, which is
    all the code looks at. *)
Inductive jsval : Type :=
  | JUndefined
  | JNull
  | JBool (b : bool)
  | JNum (z : Z)
  | JNaN
  | JStr (s : jsstring)
  | JObject.

(** ToBoolean. *)
Definition truthy (v : jsval) : bool :=
  match v with
  | JUndefined | JNull | JNaN => false
  | JBool b => b
  | JNum z => negb (z =? 0)%Z
  | JStr s => match s with [] => false | _ => true end
  | JObject => true
  end.

(** [a || b]. *)
Definition or_else (a b : jsval) : jsval := if truthy a then a else b.

(** [String.prototype.startsWith] and [String.prototype.includes]. *)
Fixpoint startsWith (s p : jsstring) : bool :=
  match p, s with
  | [], _ => true
  | _ :: _, [] => false
  | a :: p', b :: s' => (a =? b) && startsWith s' p'
  end.

Fixpoint includes (s p : jsstring) : bool :=
  startsWith s p ||
  match s with
  | [] => false
  | _ :: t => includes t p
  end.

(** [Array.prototype.join] on an array of strings. *)
Fixpoint join (sep : jsstring) (parts : list jsstring) : jsstring :=
  match parts with
  | [] => []
  | [p] => p
  | p :: rest => p ++ sep ++ join sep rest
  end.

End Js.
Import Js.

(** ** Helper Function to Process Content *)

Module Normalizer.

(** The class [\s]: WhiteSpace and LineTerminator code units.  It is also
    the set [String.prototype.trim] strips. *)
Definition is_space (c : N) : bool :=
  ((9 <=? c) && (c <=? 13)) || (c =? 32) || (c =? 160) || (c =? 5760) ||
  ((8192 <=? c) && (c <=? 8202)) || (c =? 8232) || (c =? 8233) ||
  (c =? 8239) || (c =? 8287) || (c =? 12288) || (c =? 65279).

(** The class [\w] of a regular expression without the [i] and [u] flags. *)
Definition is_word (c : N) : bool :=
  ((48 <=? c) && (c <=? 57)) || ((65 <=? c) && (c <=? 90)) ||
  (c =? 95) || ((97 <=? c) && (c <=? 122)).

(** The members of the class [[\w\s.,!?()-]]. *)
Definition in_kept_class (c : N) : bool :=
  is_word c || is_space c ||
  (c =? 46) || (c =? 44) || (c =? 33) || (c =? 63) ||
  (c =? 40) || (c =? 41) || (c =? 45).

(** [.trim()] *)
Fixpoint trimStart (s : jsstring) : jsstring :=
  match s with
  | [] => []
  | c :: t => if is_space c then trimStart t else s
  end.

Definition trimEnd (s : jsstring) : jsstring :=
  reverse (trimStart (reverse s)).

Definition trim (s : jsstring) : jsstring := trimEnd (trimStart s).

(** [.replace(/\s+/g, ' ')]: at a code unit of [\s] a match starts, the
    greedy [+] takes the rest of the run, one space is written for the whole
    match, and the scan goes on behind it. *)
Fixpoint replace_space_runs (s : jsstring) : jsstring :=
  match s with
  | [] => []
  | c :: t =>
      if is_space c then
        SPACE :: (fix rest_of_run (u : jsstring) : jsstring :=
                    match u with
                    | [] => []
                    | d :: v =>
                        if is_space d then rest_of_run v
                        else d :: replace_space_runs v
                    end) t
      else c :: replace_space_runs t
  end.

(** [.replace(/[^\w\s.,!?()-]/g, '')]: every single code unit outside the
    class is a match and is replaced by nothing. *)
Fixpoint replace_unwanted (s : jsstring) : jsstring :=
  match s with
  | [] => []
  | c :: t =>
      if negb (in_kept_class c) then replace_unwanted t
      else c :: replace_unwanted t
  end.

Definition processContent (content : jsval) : jsstring :=
  match content with
  | JStr s =>
      if negb (truthy content) then []
      else replace_unwanted (replace_space_runs (trim s))
  | _ => []
  end.

End Normalizer.
Import Normalizer.

(** ** Exceptions and the mutable world of a webhook call *)

(** The outcome of a call that may throw; an error is kept as its message. *)
Inductive Res (A : Type) : Type :=
  | Ok (a : A)
  | Throw (error : jsstring).
Arguments Ok {A} a.
Arguments Throw {A} error.

(** ** PDF Chatbot Class *)

Module Chatbot.

Record Document : Type := { pageContent : jsstring }.

(** The vector store is held through the one call the code makes on it,
    [asRetriever(k).getRelevantDocuments(query)]; it throws when the
    embedding service fails. *)
Record VectorStore : Type :=
  { asRetriever : Z -> jsstring -> Res (list Document) }.

(** [this.llm.invoke(prompt)] gives [response.content] or throws;
    [this.vectorStore] is [null] until [loadAndProcessPDF] has assigned it. *)
Record PDFChatbot : Type :=
  { llm : jsstring -> Res jsval;
    vectorStore : option VectorStore }.

Record QueryResult : Type := { answer : jsstring }.

(** The template literal of [queryPDF], line by line: the text before [${context}], *)
Definition prompt_head : jsstring :=
  join NL
    [ [];
      lit "            Context Information:";
      lit "                " ].

(** the text between [${context}] and [${processedQuery}], *)
Definition prompt_mid : jsstring :=
  join NL
    [ [];
      lit "                ";
      lit "            Query: " ].

(** and the text after [${processedQuery}]. *)
Definition prompt_tail : jsstring :=
  join NL
    [ [];
      lit "            ";
      lit "            Instructions:";
      lit "            1. Analyze the provided context carefully.";
      lit "            2. Generate a concise, precise, and informative answer directly based on the context.";
      lit "            3. Keep the response:";
      lit "               - Strictly limited to information from the provided context.";
      lit "               - Clear, easily understandable, and directly related to the query.";
      lit "               ";
      lit "            Response Guidelines:";
      lit "            - If the context does not contain sufficient information to answer the query:";
      lit "               * Respond with: " ++ DQUOTE ++ lit "I do not have enough information to answer this question." ++ DQUOTE;
      lit "               * Suggest: " ++ DQUOTE ++ lit "Please ask a different question related to the available content." ++ DQUOTE;
      lit "               ";
      lit "            - If the query involves legal issues or deportation-related questions:";
      lit "               * Acknowledge the issue and suggest seeking legal help if the context doesn't contain detailed information.";
      lit "               * Use a response like: " ++ DQUOTE ++ lit "It seems like you need legal assistance regarding deportation. Please consult a lawyer specializing in deportation matters." ++ DQUOTE;
      lit "               ";
      lit "            - If the query is asking about the chatbot itself, such as " ++ DQUOTE ++ lit "What is this chatbot about?" ++ DQUOTE ++ lit " or " ++ DQUOTE ++ lit "What can this chatbot do?" ++ DQUOTE ++ lit ", and the context contains information about the chatbot's purpose or functionality, provide a clear description of the chatbot's role or capabilities based on the context.";
      lit "        ";
      lit "            Constraints:";
      lit "            - Do not reference the source document.";
      lit "            - Do not disclose any details about the document's origin.";
      lit "            - Provide only the most relevant information.";
      lit "              ";
      lit "            Response Format:";
      lit "            [Concise Answer]";
      lit "        " ].

Definition build_context (relevantDocs : list Document) : jsstring :=
  join (NL ++ NL)
       (List.map (fun doc => processContent (JStr (pageContent doc))) relevantDocs).

Definition build_prompt (context processedQuery : jsstring) : jsstring :=
  prompt_head ++ context ++ prompt_mid ++ processedQuery ++ prompt_tail.

(** [try { ... } catch (error) { console.error(...); throw error; }] *)
Definition rethrow {A : Type} (body : Res A) : Res A :=
  match body with
  | Ok a => Ok a
  | Throw error => Throw error
  end.

Definition queryPDF (this : PDFChatbot) (query : jsval) : Res QueryResult :=
  match vectorStore this with
  | None => Throw (lit "PDF not loaded. Call loadAndProcessPDF first.")
  | Some store =>
      rethrow
        (let processedQuery := processContent query in
         match asRetriever store 4 processedQuery with
         | Throw error => Throw error
         | Ok relevantDocs =>
             let context := build_context relevantDocs in
             let prompt := build_prompt context processedQuery in
             match llm this prompt with
             | Throw error => Throw error
             | Ok content => Ok {| answer := processContent content |}
             end
         end)
  end.

End Chatbot.
Import Chatbot.

(** ** SheetDB Service *)

Module Escalation.
(** The object literal handed to [addUnresolvedQuery]. *)
Record t : Type :=
  { name : jsval; email : jsval; query : jsval; timestamp : jsstring }.
End Escalation.

(** [client.create(data)] answers with a response or throws. *)
Record SheetClient : Type :=
  { create : Escalation.t -> Res jsval }.

Record SheetDBService : Type := { client : SheetClient }.

(** ** The Dialogflow agent *)

Module Context.
Record t : Type :=
  { name : string;
    lifespan : Z;
    parameters : option (gmap string jsval) }.
End Context.

(** The fields of the fulfillment library's [WebhookClient] the handlers
    use: what the request carried, the context store, and the messages
    queued by [agent.add]. *)
Record WebhookClient : Type :=
  { intent : string;
    query : jsval;
    parameters : gmap string jsval;
    contexts : gmap string Context.t;
    responses : list jsstring }.

(** What a handler can change: the agent it is given, and the rows it has
    sent to the sheet client (in call order). *)
Record World : Type :=
  { agent : WebhookClient;
    created : list Escalation.t }.

(** A handler step: it ends normally or throws, and either way leaves the
    world as it mutated it. *)
Definition M (A : Type) : Type := World -> Res A * World.

Definition ret {A : Type} (a : A) : M A := fun w => (Ok a, w).

Definition throw {A : Type} (error : jsstring) : M A := fun w => (Throw error, w).

Definition bind {A B : Type} (m : M A) (k : A -> M B) : M B :=
  fun w =>
    match m w with
    | (Ok a, w') => k a w'
    | (Throw error, w') => (Throw error, w')
    end.

(** [try { body } catch (error) { handler }] *)
Definition try_catch {A : Type} (body : M A) (handler : jsstring -> M A) : M A :=
  fun w =>
    match body w with
    | (Ok a, w') => (Ok a, w')
    | (Throw error, w') => handler error w'
    end.

(** [await] of a call that does not touch the world. *)
Definition await {A : Type} (r : Res A) : M A := fun w => (r, w).

Notation "'let!' x := m 'in' k" := (bind m (fun x => k))
  (at level 10, x name, m at level 100, k at level 200).
Notation "m ;; k" := (bind m (fun _ => k))
  (at level 100, k at level 200, right associativity).

Definition get_agent : M WebhookClient := fun w => (Ok (agent w), w).

(** [agent.add(text)] *)
Definition agent_add (text : jsstring) : M unit :=
  fun w =>
    let a := agent w in
    (Ok tt,
     {| agent := {| intent := intent a; query := query a;
                    parameters := parameters a; contexts := contexts a;
                    responses := responses a ++ [text] |};
        created := created w |}).

(** [agent.setContext(context)]: the context is stored under its name. *)
Definition agent_setContext (c : Context.t) : M unit :=
  fun w =>
    let a := agent w in
    (Ok tt,
     {| agent := {| intent := intent a; query := query a;
                    parameters := parameters a;
                    contexts := <[Context.name c := c]> (contexts a);
                    responses := responses a |};
        created := created w |}).

(** [agent.getContext(name)] *)
Definition getContext (a : WebhookClient) (name : string) : option Context.t :=
  contexts a !! name.

(** [agent.parameters.<key>] *)
Definition parameter (a : WebhookClient) (key : string) : jsval :=
  default JUndefined (parameters a !! key).

(** [this.client.create(data)]: the row goes out, the client's answer comes
    back. *)
Definition client_create (c : SheetClient) (data : Escalation.t) : M jsval :=
  fun w =>
    (create c data, {| agent := agent w; created := created w ++ [data] |}).

Definition addUnresolvedQuery (this : SheetDBService) (data : Escalation.t) : M jsval :=
  try_catch
    (let! response := client_create (client this) data in
     ret response)
    (fun error => throw error).

(** ** Dialogflow Webhook *)

Module Webhook.

Definition handleWelcomeIntent : M unit :=
  agent_add (lit "Hi there! How can I assist you today?").

Definition handleFallbackIntent (pdfChatbot : PDFChatbot) (userQuery : jsval) : M unit :=
  try_catch
    (let! result := await (queryPDF pdfChatbot userQuery) in
     if includes (answer result) (lit "I do not have enough information") then
       agent_add (lit "I couldn't find an answer to your question. Could you please provide your email? We'll get back to you with more information.") ;;
       agent_setContext
         {| Context.name := "awaiting_user_info";
            Context.lifespan := 2;
            Context.parameters := Some {[ "original_query" := userQuery ]} |}
     else
       agent_add (answer result))
    (fun error =>
       agent_add (lit "Sorry, I couldn't process your request right now.")).

(** [agent.getContext('awaiting_user_info')?.parameters?.original_query] *)
Definition stored_original_query (a : WebhookClient) : jsval :=
  match getContext a "awaiting_user_info" with
  | None => JUndefined
  | Some c =>
      match Context.parameters c with
      | None => JUndefined
      | Some ps => default JUndefined (ps !! "original_query")
      end
  end.

(** [now] is [new Date().toISOString()] at the time of the call. *)
Definition handleUserInfoIntent (sheetdbService : SheetDBService) (now : jsstring) : M unit :=
  let! a := get_agent in
  let name := parameter a "name" in
  let email := parameter a "email" in
  let originalQuery := or_else (stored_original_query a) (JStr (lit "N/A")) in
  try_catch
    (addUnresolvedQuery sheetdbService
       {| Escalation.name := name;
          Escalation.email := email;
          Escalation.query := originalQuery;
          Escalation.timestamp := now |} ;;
     agent_add (lit "Thank you, We've recorded your query and will follow up via email."))
    (fun error =>
       agent_add (lit "Sorry, there was an issue saving your information. Please try again later.")).

(** The parts of a well-formed Dialogflow request body the webhook reads
    (for such a body the library constructor and the reads of the intent
    name, the query text and the session id do not throw). *)
Record Request : Type :=
  { body_intent : string;
    body_queryText : jsval;
    body_parameters : gmap string jsval;
    body_outputContexts : gmap string Context.t }.

(** [new WebhookClient({ request: req, response: res })] *)
Definition new_WebhookClient (req : Request) : WebhookClient :=
  {| intent := body_intent req;
     query := body_queryText req;
     parameters := body_parameters req;
     contexts := body_outputContexts req;
     responses := [] |}.

(** [let pdfChatbot; let sheetdbService;] *)
Record Globals : Type :=
  { pdfChatbot : option PDFChatbot;
    sheetdbService : option SheetDBService }.

(** How a webhook call ends: an explicit [res.status(code).send(text)], the
    library sending the agent's queued messages and contexts, the library
    finding no handler, or the handler's promise rejecting. *)
Inductive Reply : Type :=
  | Status (code : Z) (text : jsstring)
  | Fulfilled (a : WebhookClient)
  | NoHandler
  | Rejected (error : jsstring).

Definition intentMap (bot : PDFChatbot) (svc : SheetDBService)
    (userQuery : jsval) (now : jsstring) : gmap string (M unit) :=
  <["Collect_User_Info" := handleUserInfoIntent svc now]>
    (<["PDF_Query_Intent" := handleFallbackIntent bot userQuery]>
       (<["Default Fallback Intent" := handleFallbackIntent bot userQuery]>
          (<["Default Welcome Intent" := handleWelcomeIntent]> ∅))).

(** [agent.handleRequest(intentMap)] *)
Definition handleRequest (handlers : gmap string (M unit)) (w : World) : Reply * World :=
  match handlers !! intent (agent w) with
  | None => (NoHandler, w)
  | Some handler =>
      match handler w with
      | (Ok _, w') => (Fulfilled (agent w'), w')
      | (Throw error, w') => (Rejected error, w')
      end
  end.

(** [app.post('/dialogflow-webhook', ...)]; [rows] is what the sheet client
    has been sent so far. *)
Definition dialogflow_webhook (g : Globals) (now : jsstring) (req : Request)
    (rows : list Escalation.t) : Reply * list Escalation.t :=
  match pdfChatbot g, sheetdbService g with
  | Some bot, Some svc =>
      let agent0 := new_WebhookClient req in
      let userQuery :=
        or_else (or_else (query agent0) (body_queryText req))
                (JStr (lit "No query found")) in
      let (reply, w) :=
        handleRequest (intentMap bot svc userQuery now)
                      {| agent := agent0; created := rows |} in
      (reply, created w)
  | _, _ => (Status 503 (lit "Services not initialized"), rows)
  end.

(** Load PDF and Initialize Services on Startup: the globals after the
    first [n] statements of the startup block have run without throwing (a
    throw ends the process).  [built] is the store [loadAndProcessPDF]
    assigns to [this.vectorStore]. *)
Definition startup_after (n : nat) (model : jsstring -> Res jsval)
    (built : VectorStore) (sheetdbClient : SheetClient) : Globals :=
  match n with
  | 0%nat => {| pdfChatbot := None; sheetdbService := None |}
  | 1%nat =>
      {| pdfChatbot := Some {| llm := model; vectorStore := None |};
         sheetdbService := None |}
  | 2%nat =>
      {| pdfChatbot := Some {| llm := model; vectorStore := Some built |};
         sheetdbService := None |}
  | _ =>
      {| pdfChatbot := Some {| llm := model; vectorStore := Some built |};
         sheetdbService := Some {| client := sheetdbClient |} |}
  end.

End Webhook.
Import Webhook.

(** ** The vocabulary of the specification *)

Module Spec.

(** The allowed set: word characters, whitespace and [. , ! ? ( ) -]. *)
Definition allowed_char (c : N) : Prop :=
  is_word c = true \/ is_space c = true \/ In c (lit ".,!?()-").

(** Maximal runs of a string, each tagged with whether it is whitespace. *)
Fixpoint runs (s : jsstring) : list (bool * jsstring) :=
  match s with
  | [] => []
  | c :: t =>
      match runs t with
      | (b, r) :: more =>
          if Bool.eqb b (is_space c) then (b, c :: r) :: more
          else (is_space c, [c]) :: (b, r) :: more
      | [] => [(is_space c, [c])]
      end
  end.

(** Neighbouring runs are of different kinds. *)
Fixpoint alternating (rs : list (bool * jsstring)) : Prop :=
  match rs with
  | r1 :: ((r2 :: _) as more) => fst r1 <> fst r2 /\ alternating more
  | _ => True
  end.

(** Every whitespace run collapsed to a single space. *)
Definition collapse_runs (s : jsstring) : jsstring :=
  concat (List.map (fun run : bool * jsstring =>
                      if fst run then [SPACE] else snd run) (runs s)).

(** Every character outside the allowed set removed. *)
Definition strip_disallowed (s : jsstring) : jsstring :=
  List.filter (fun c => is_word c || is_space c ||
                        existsb (N.eqb c) (lit ".,!?()-")) s.

(** A string that neither begins nor ends with whitespace. *)
Definition clean_ends (s : jsstring) : Prop :=
  (forall c, head s = Some c -> is_space c = false) /\
  (forall c, last s = Some c -> is_space c = false).

(** [m] is [s] trimmed of leading and trailing whitespace. *)
Definition trimmed_of (s m : jsstring) : Prop :=
  exists l r, s = l ++ m ++ r /\
    Forall (fun c => is_space c = true) l /\
    Forall (fun c => is_space c = true) r /\
    clean_ends m.

(** The two states of a session, read off the agent's context store. *)
Inductive ConversationState : Type :=
  | Answering
  | AwaitingContactInfo (originalQuery : jsval) (remainingTurns : Z).

Definition session_state (a : WebhookClient) : ConversationState :=
  match contexts a !! "awaiting_user_info" with
  | Some c =>
      if (0 <? Context.lifespan c)%Z
      then AwaitingContactInfo (stored_original_query a) (Context.lifespan c)
      else Answering
  | None => Answering
  end.

(** The fixed texts. *)
Definition INSUFFICIENT_MARKER : jsstring := lit "I do not have enough information".
Definition REFUSAL : jsstring :=
  lit "I do not have enough information to answer this question.".
Definition SUGGESTION : jsstring :=
  lit "Please ask a different question related to the available content.".
Definition CONTACT_REQUEST : jsstring :=
  lit "I couldn't find an answer to your question. Could you please provide your email? We'll get back to you with more information.".
Definition ACKNOWLEDGEMENT : jsstring :=
  lit "Thank you, We've recorded your query and will follow up via email.".
Definition APOLOGY : jsstring :=
  lit "Sorry, there was an issue saving your information. Please try again later.".
Definition NOT_READY : jsstring := lit "Services not initialized".

(** The vector index has been built. *)
Definition index_built (g : Globals) : bool :=
  match pdfChatbot g with
  | Some bot => match vectorStore bot with Some _ => true | None => false end
  | None => false
  end.

(** The record the contact-info handler builds from the agent and the
    current time. *)
Definition escalation_record (a : WebhookClient) (now : jsstring) : Escalation.t :=
  {| Escalation.name := parameter a "name";
     Escalation.email := parameter a "email";
     Escalation.query := or_else (stored_original_query a) (JStr (lit "N/A"));
     Escalation.timestamp := now |}.

(** The stored context is missing, or carries no [original_query]. *)
Definition no_original_query (a : WebhookClient) : Prop :=
  match contexts a !! "awaiting_user_info" with
  | None => True
  | Some c =>
      match Context.parameters c with
      | None => True
      | Some ps => ps !! "original_query" = None
      end
  end.

(** [p] occurs in [s]. *)
Definition occurs_in (p s : jsstring) : Prop := exists a b, s = a ++ p ++ b.

End Spec.
Import Spec.

(** ** Sample collaborators and sessions *)

Module Sample.

(** A store that retrieves two chunks, whatever the query. *)
Definition store : VectorStore :=
  {| asRetriever := fun _ _ =>
       Ok [ {| pageContent := lit "Office hours are 9-5 Monday to Friday." |};
            {| pageContent := lit "Refunds: see   <desk>" |} ] |}.

(** A model that answers from the context. *)
Definition answering_bot : PDFChatbot :=
  {| llm := fun _ => Ok (JStr (lit " Office hours: *9-5*, Monday to Friday. "));
     vectorStore := Some store |}.

(** A model that finds the context insufficient. *)
Definition refusing_bot : PDFChatbot :=
  {| llm := fun _ =>
       Ok (JStr (lit "I do not have enough information to answer this question. Please ask a different question related to the available content."));
     vectorStore := Some store |}.

(** A chatbot whose PDF has not been loaded. *)
Definition unloaded_bot : PDFChatbot :=
  {| llm := fun _ => Ok (JStr (lit "unused")); vectorStore := None |}.

Definition accepting_sheet : SheetDBService :=
  {| client := {| create := fun _ => Ok JObject |} |}.

Definition failing_sheet : SheetDBService :=
  {| client := {| create := fun _ => Throw (lit "Request failed with status code 500") |} |}.

Definition NOW : jsstring := lit "2024-05-01T10:00:00.000Z".

(** A first turn of a session: no context is stored. *)
Definition fresh_agent : WebhookClient :=
  {| intent := "PDF_Query_Intent";
     query := JStr (lit "What is your refund policy?");
     parameters := ∅;
     contexts := ∅;
     responses := [] |}.

(** A contact-info turn of a session that is awaiting it. *)
Definition awaiting_agent : WebhookClient :=
  {| intent := "Collect_User_Info";
     query := JStr (lit "Ana, ana@x.com");
     parameters := {[ "name" := JStr (lit "Ana"); "email" := JStr (lit "ana@x.com") ]};
     contexts :=
       {[ "awaiting_user_info" :=
            {| Context.name := "awaiting_user_info";
               Context.lifespan := 2;
               Context.parameters :=
                 Some {[ "original_query" := JStr (lit "refund policy") ]} |} ]};
     responses := [] |}.

(** A contact-info turn of a session that stored no context. *)
Definition stray_agent : WebhookClient :=
  {| intent := "Collect_User_Info";
     query := JStr (lit "Ana, ana@x.com");
     parameters := {[ "name" := JStr (lit "Ana"); "email" := JStr (lit "ana@x.com") ]};
     contexts := ∅;
     responses := [] |}.

Definition fresh_world : World := {| agent := fresh_agent; created := [] |}.
Definition awaiting_world : World := {| agent := awaiting_agent; created := [] |}.
Definition stray_world : World := {| agent := stray_agent; created := [] |}.

End Sample.

(** ** Load PDF and Initialize Services on Startup *)

Module Startup.

(** What the startup block reads and calls outside the program: the API
    key of the environment, the model bound to a key, the file system, the
    PDF parser (its [text] field), the text splitter with its chunk size
    and overlap, and the store built from the split documents with the
    chatbot's embeddings. *)
Record Environment : Type :=
  { GEMINI_API_KEY : option jsstring;
    ChatGoogleGenerativeAI : jsstring -> jsstring -> Res jsval;
    existsSync : jsstring -> bool;
    readFileSync : jsstring -> Res (list N);
    pdf : list N -> Res jsval;
    createDocuments : Z -> Z -> jsstring -> Res (list Document);
    fromDocuments : list Document -> Res VectorStore }.

(** [new PDFChatbot()] *)
Definition new_PDFChatbot (env : Environment) : Res PDFChatbot :=
  match GEMINI_API_KEY env with
  | Some (c :: key) =>
      Ok {| llm := ChatGoogleGenerativeAI env (c :: key); vectorStore := None |}
  | _ => Throw (lit "Missing GEMINI_API_KEY in environment variables")
  end.

Definition and_then {A B : Type} (r : Res A) (k : A -> Res B) : Res B :=
  match r with
  | Ok a => k a
  | Throw error => Throw error
  end.

(** [loadAndProcessPDF(pdfPath)]: the outcome and the chatbot afterwards. *)
Definition loadAndProcessPDF (env : Environment) (this : PDFChatbot)
    (pdfPath : jsstring) : Res unit * PDFChatbot :=
  let built :=
    rethrow
      (if negb (existsSync env pdfPath) then
         Throw (lit "PDF file not found at " ++ pdfPath)
       else
         and_then (readFileSync env pdfPath) (fun dataBuffer =>
         and_then (pdf env dataBuffer) (fun text =>
         let processedPdfText := processContent text in
         and_then (createDocuments env 1000 200 processedPdfText) (fun splitTexts =>
         fromDocuments env splitTexts)))) in
  match built with
  | Ok store => (Ok tt, {| llm := llm this; vectorStore := Some store |})
  | Throw error => (Throw error, this)
  end.

(** The process after the startup block: serving with its globals, or
    ended by [process.exit(code)]. *)
Inductive Process : Type :=
  | Serving (g : Globals)
  | Exited (code : Z).

Definition startup (env : Environment) (PDF_PATH : jsstring)
    (sheetdbClient : SheetClient) : Process :=
  match new_PDFChatbot env with
  | Throw _ => Exited 1
  | Ok bot =>
      match loadAndProcessPDF env bot PDF_PATH with
      | (Throw _, _) => Exited 1
      | (Ok _, bot') =>
          Serving {| pdfChatbot := Some bot';
                     sheetdbService := Some {| client := sheetdbClient |} |}
      end
  end.

End Startup.

(** ** Dialogflow Integration and Twilio Webhook *)

Module Twilio.

Record DetectIntentRequest : Type :=
  { session : jsstring; text : jsval; languageCode : jsstring }.

(** [response.queryResult], as far as the webhook reads it. *)
Record DialogflowResult : Type := { fulfillmentText : jsval }.

(** [detectIntent] answers with the first response's [queryResult], which
    may be missing, or throws. *)
Record SessionsClient : Type :=
  { projectAgentSessionPath : jsstring -> jsstring -> jsstring;
    detectIntent : DetectIntentRequest -> Res (option DialogflowResult) }.

Record Message : Type :=
  { body : jsval; from : option jsstring; to : option jsstring }.

Record TwilioClient : Type := { messages_create : Message -> Res jsval }.

Record Config : Type :=
  { DIALOGFLOW_PROJECT_ID : option jsstring;
    TWILIO_WHATSAPP_NUMBER : option jsstring;
    sessionClient : SessionsClient;
    twilioClient : TwilioClient }.

(** [process.env.DIALOGFLOW_PROJECT_ID || 'simplytr-uutw'] *)
Definition PROJECT_ID (cfg : Config) : jsstring :=
  match DIALOGFLOW_PROJECT_ID cfg with
  | Some (c :: id) => c :: id
  | _ => lit "simplytr-uutw"
  end.

(** The session id is a form field: a string when it is there. *)
Definition sendToDialogflow (cfg : Config) (message : jsval)
    (sessionId : option jsstring) : Res (option DialogflowResult) :=
  rethrow
    (match sessionId with
     | Some (c :: id) =>
         match PROJECT_ID cfg with
         | [] => Throw (lit "Project ID is undefined.")
         | _ :: _ =>
             let sessionPath :=
               projectAgentSessionPath (sessionClient cfg) (PROJECT_ID cfg) (c :: id) in
             detectIntent (sessionClient cfg)
               {| session := sessionPath; text := message; languageCode := lit "en" |}
         end
     | _ => Throw (lit "Session ID is undefined.")
     end).

Record TwilioRequest : Type := { Body : jsval; From : option jsstring }.

(** [app.post('/twilio-webhook', ...)]; [sent] is what the Twilio client
    has been asked to send so far.  Reading [fulfillmentText] of a missing
    query result throws, which the handler's [catch] answers like any other
    error. *)
Definition twilio_webhook (cfg : Config) (req : TwilioRequest)
    (sent : list Message) : Reply * list Message :=
  let userMessage := Body req in
  let fromNumber := From req in
  match sendToDialogflow cfg userMessage fromNumber with
  | Throw _ => (Status 500 (lit "Error processing Twilio request"), sent)
  | Ok None => (Status 500 (lit "Error processing Twilio request"), sent)
  | Ok (Some dialogflowResponse) =>
      let dialogflowText :=
        or_else (fulfillmentText dialogflowResponse)
                (JStr (lit "Sorry, I didn't understand that. Can you rephrase?")) in
      let message :=
        {| body := dialogflowText;
           from := TWILIO_WHATSAPP_NUMBER cfg;
           to := fromNumber |} in
      match messages_create (twilioClient cfg) message with
      | Ok _ => (Status 200 (lit "Message processed successfully"), sent ++ [message])
      | Throw _ => (Status 500 (lit "Error processing Twilio request"), sent ++ [message])
      end
  end.

End Twilio.

(** ** The variant of the server without the sheet ([src/unnamed/part_000]) *)

Module Legacy.

(** [processContent], the store, the prompt head and the text before the
    query are those of [index.js]; the text after the query differs in one
    line. *)
Definition prompt_tail : jsstring :=
  join NL
    [ [];
      lit "            ";
      lit "            Instructions:";
      lit "            1. Analyze the provided context carefully.";
      lit "            2. Generate a concise, precise, and informative answer directly based on the context.";
      lit "            3. Keep the response:";
      lit "               - Strictly limited to information from the provided context.";
      lit "               - Clear, easily understandable, and directly related to the query.";
      lit "               ";
      lit "            Response Guidelines:";
      lit "            - If the context does not contain sufficient information to answer the query:";
      lit "               * Respond with: " ++ DQUOTE ++ lit "I do not have enough information to answer this question." ++ DQUOTE;
      lit "               * Suggest: " ++ DQUOTE ++ lit "Please ask a different question related to the available content." ++ DQUOTE;
      lit "               ";
      lit "            - If the query involves legal issues or deportation-related questions:";
      lit "               * Acknowledge the issue and suggest seeking legal help if the context doesn't contain detailed information.";
      lit "               * Use a response like: " ++ DQUOTE ++ lit "It seems like you need legal assistance regarding deportation. Please consult a lawyer specializing in deportation matters." ++ DQUOTE;
      lit "               ";
      lit "            - If the query is asking about the chatbot itself, such as " ++ DQUOTE ++ lit "What is this chatbot about?" ++ DQUOTE ++ lit " or " ++ DQUOTE ++ lit "What can this chatbot do?" ++ DQUOTE ++ lit ", and the context contains information about the chatbot" ++ [226; 8364; 8482] ++ lit "s purpose or functionality, provide a clear description of the chatbot's role or capabilities based on the context.";
      lit "        ";
      lit "            Constraints:";
      lit "            - Do not reference the source document.";
      lit "            - Do not disclose any details about the document's origin.";
      lit "            - Provide only the most relevant information.";
      lit "              ";
      lit "            Response Format:";
      lit "            [Concise Answer]";
      lit "        " ].

Definition build_prompt (context processedQuery : jsstring) : jsstring :=
  prompt_head ++ context ++ prompt_mid ++ processedQuery ++ prompt_tail.

Definition queryPDF (this : PDFChatbot) (query : jsval) : Res QueryResult :=
  match vectorStore this with
  | None => Throw (lit "PDF not loaded. Call loadAndProcessPDF first.")
  | Some store =>
      rethrow
        (let processedQuery := processContent query in
         match asRetriever store 4 processedQuery with
         | Throw error => Throw error
         | Ok relevantDocs =>
             let context := build_context relevantDocs in
             let prompt := build_prompt context processedQuery in
             match llm this prompt with
             | Throw error => Throw error
             | Ok content => Ok {| answer := processContent content |}
             end
         end)
  end.

(** [text || fallback] on strings. *)
Definition text_or (text fallback : jsstring) : jsstring :=
  match text with
  | [] => fallback
  | _ :: _ => text
  end.

Definition handleFallbackIntent (pdfChatbot : PDFChatbot) (req : Request) : M unit :=
  let! a := get_agent in
  let userQuery :=
    or_else (or_else (query a) (body_queryText req))
            (JStr (lit "No query found")) in
  try_catch
    (let! result := await (queryPDF pdfChatbot userQuery) in
     agent_add (text_or (answer result)
                        (lit "Sorry, I couldn't find relevant information.")))
    (fun error =>
       agent_add (lit "Sorry, I couldn't process your request right now.")).

Definition intentMap (bot : PDFChatbot) (req : Request) : gmap string (M unit) :=
  <["PDF_Query_Intent" := handleFallbackIntent bot req]>
    (<["Default Fallback Intent" := handleFallbackIntent bot req]>
       (<["Default Welcome Intent" := handleWelcomeIntent]> ∅)).

(** [app.post('/dialogflow-webhook', ...)] of the variant: one global, no
    sheet. *)
Definition dialogflow_webhook (pdfChatbot : option PDFChatbot) (req : Request) : Reply :=
  match pdfChatbot with
  | None => Status 503 (lit "Chatbot not initialized")
  | Some bot =>
      fst (handleRequest (intentMap bot req)
                         {| agent := new_WebhookClient req; created := [] |})
  end.

End Legacy.

(** ** More vocabulary for stating properties *)

Module Observe.

(** The characters the normalizer keeps as they are: members of the class
    that are not whitespace. *)
Definition visible (c : N) : bool := in_kept_class c && negb (is_space c).

(** [String.prototype.split] with the blank-line separator; [acc] holds the
    current piece, last character first. *)
Fixpoint split_blank_lines (acc s : jsstring) : list jsstring :=
  match s with
  | [] => [reverse acc]
  | c :: t =>
      match t with
      | [] => [reverse (c :: acc)]
      | d :: t' =>
          if (c =? 10) && (d =? 10) then reverse acc :: split_blank_lines [] t'
          else split_blank_lines (c :: acc) t
      end
  end.

(** The text up to the first line feed. *)
Fixpoint first_line (s : jsstring) : jsstring :=
  match s with
  | [] => []
  | c :: t => if c =? 10 then [] else c :: first_line t
  end.

(** The query the webhook hands to its handlers. *)
Definition userQuery_of (req : Request) : jsval :=
  or_else (or_else (body_queryText req) (body_queryText req))
          (JStr (lit "No query found")).

Definition registered (name : string) : Prop :=
  name = "Default Welcome Intent" \/ name = "Default Fallback Intent" \/
  name = "PDF_Query_Intent" \/ name = "Collect_User_Info".

(** What every handler of the intent map does to the world: it ends
    normally, queues one message, keeps what the request carried, touches no
    context but the awaiting one, and sends at most one row. *)
Definition one_reply (h : M unit) : Prop :=
  forall w, exists w' message extra,
    h w = (Ok tt, w') /\
    intent (agent w') = intent (agent w) /\
    query (agent w') = query (agent w) /\
    parameters (agent w') = parameters (agent w) /\
    responses (agent w') = responses (agent w) ++ [message] /\
    (forall k, k <> "awaiting_user_info" ->
               contexts (agent w') !! k = contexts (agent w) !! k) /\
    created w' = created w ++ extra /\
    (length extra <= 1)%nat.

End Observe.
Import Observe.

(** ** More sample collaborators *)

Module Fixtures.

(** A store whose embedding service is down. *)
Definition failing_store : VectorStore :=
  {| asRetriever := fun _ _ => Throw (lit "fetch failed") |}.

Definition retrieval_failing_bot : PDFChatbot :=
  {| llm := fun _ => Ok (JStr (lit "unused")); vectorStore := Some failing_store |}.

Definition model_failing_bot : PDFChatbot :=
  {| llm := fun _ => Throw (lit "429 Too Many Requests");
     vectorStore := Some Sample.store |}.

Definition sample_docs : list Document :=
  [ {| pageContent := lit "Office hours are 9-5 Monday to Friday." |};
    {| pageContent := lit "   " |};
    {| pageContent := lit "Refunds: see   <desk>" |} ].

(** An environment in which every step of the startup block succeeds. *)
Definition good_env : Startup.Environment :=
  {| Startup.GEMINI_API_KEY := Some (lit "key-123");
     Startup.ChatGoogleGenerativeAI := fun _ prompt => Ok (JStr prompt);
     Startup.existsSync := fun _ => true;
     Startup.readFileSync := fun _ => Ok [37; 80; 68; 70];
     Startup.pdf := fun _ => Ok (JStr (lit "Office  hours:" ++ NL ++ lit "9-5"));
     Startup.createDocuments := fun _ _ t => Ok [ {| pageContent := t |} ];
     Startup.fromDocuments := fun docs => Ok {| asRetriever := fun _ _ => Ok docs |} |}.

(** The same environment without the PDF file. *)
Definition no_file_env : Startup.Environment :=
  {| Startup.GEMINI_API_KEY := Some (lit "key-123");
     Startup.ChatGoogleGenerativeAI := fun _ prompt => Ok (JStr prompt);
     Startup.existsSync := fun _ => false;
     Startup.readFileSync := fun _ => Throw (lit "ENOENT");
     Startup.pdf := fun _ => Ok (JStr (lit "unused"));
     Startup.createDocuments := fun _ _ t => Ok [ {| pageContent := t |} ];
     Startup.fromDocuments := fun docs => Ok {| asRetriever := fun _ _ => Ok docs |} |}.

Definition PDF_PATH : jsstring := lit "/app/faqs.pdf".

(** A Dialogflow client that echoes the message, and a Twilio client that
    accepts every message. *)
Definition echo_sessions : Twilio.SessionsClient :=
  {| Twilio.projectAgentSessionPath := fun project id =>
       lit "projects/" ++ project ++ lit "/agent/sessions/" ++ id;
     Twilio.detectIntent := fun request =>
       Ok (Some {| Twilio.fulfillmentText := Twilio.text request |}) |}.

Definition good_cfg : Twilio.Config :=
  {| Twilio.DIALOGFLOW_PROJECT_ID := None;
     Twilio.TWILIO_WHATSAPP_NUMBER := Some (lit "whatsapp:+14155238886");
     Twilio.sessionClient := echo_sessions;
     Twilio.twilioClient := {| Twilio.messages_create := fun _ => Ok JObject |} |}.

(** The same with a Dialogflow client that is down. *)
Definition down_cfg : Twilio.Config :=
  {| Twilio.DIALOGFLOW_PROJECT_ID := Some (lit "my-project");
     Twilio.TWILIO_WHATSAPP_NUMBER := Some (lit "whatsapp:+14155238886");
     Twilio.sessionClient :=
       {| Twilio.projectAgentSessionPath := fun project id => project ++ id;
          Twilio.detectIntent := fun _ => Throw (lit "14 UNAVAILABLE") |};
     Twilio.twilioClient := {| Twilio.messages_create := fun _ => Ok JObject |} |}.

End Fixtures.

(** ** Whitespace-delimited tokens *)

Module Tokens.

(** The token being read, last character first, closed at a whitespace or
    at the end of the string. *)
Definition closed_token (cur : jsstring) : list jsstring :=
  match cur with
  | [] => []
  | _ :: _ => [reverse cur]
  end.

(** The maximal whitespace-free pieces of a string, in order. *)
Fixpoint tokens_from (cur s : jsstring) : list jsstring :=
  match s with
  | [] => closed_token cur
  | c :: t =>
      if is_space c then closed_token cur ++ tokens_from [] t
      else tokens_from (c :: cur) t
  end.

Definition tokens (s : jsstring) : list jsstring := tokens_from [] s.

(** Every token holds at least one character of the class. *)
Definition every_token_kept (s : jsstring) : bool :=
  forallb (existsb in_kept_class) (tokens s).

Definition nonempty_token (t : jsstring) : bool :=
  match t with
  | [] => false
  | _ :: _ => true
  end.

(** The values on which normalizing twice gives what normalizing once
    gives: the values that are not strings, and the strings in which every
    token holds a character of the class or which hold at most one token. *)
Definition idempotent_domain (x : jsval) : Prop :=
  match x with
  | JStr s => every_token_kept s = true \/ (length (tokens s) <= 1)%nat
  | _ => True
  end.

End Tokens.
Import Tokens.

(** ** The normalizer *)

Section NormalizerFacts.

Local Abbreviation spaces := (Forall (fun c => is_space c = true)).

Lemma in_kept_class_allowed c : in_kept_class c = true <-> allowed_char c.
Proof.
  unfold in_kept_class, allowed_char.
  change (lit ".,!?()-") with [46; 44; 33; 63; 40; 41; 45].
  cbn [In]. rewrite !orb_true_iff, !N.eqb_eq. intuition congruence.
Qed.

Lemma is_space_SPACE : is_space SPACE = true.
Proof. reflexivity. Qed.

Lemma allowed_SPACE : allowed_char SPACE.
Proof. right; left; reflexivity. Qed.

(** *** Trimming *)

Lemma trimStart_split s :
  exists l, s = l ++ trimStart s /\ spaces l.
Proof.
  induction s as [|c t [l [Ht Hl]]]; cbn.
  - exists []. split; [reflexivity | constructor].
  - destruct (is_space c) eqn:Hc.
    + exists (c :: l). split; [cbn; congruence | constructor; assumption].
    + exists []. split; [reflexivity | constructor].
Qed.

Lemma trimStart_head s c : head (trimStart s) = Some c -> is_space c = false.
Proof.
  induction s as [|d t IH]; cbn; [discriminate |].
  destruct (is_space d) eqn:Hd; [exact IH |].
  cbn. intros [= <-]. exact Hd.
Qed.

Lemma trimStart_fixed s :
  (forall c, head s = Some c -> is_space c = false) -> trimStart s = s.
Proof.
  destruct s as [|c t]; cbn; [reflexivity |].
  intros H. rewrite (H c eq_refl). reflexivity.
Qed.

Lemma trimEnd_split s :
  exists r, s = trimEnd s ++ r /\ spaces r.
Proof.
  unfold trimEnd. destruct (trimStart_split (reverse s)) as [l [Hs Hl]].
  exists (reverse l). split.
  - rewrite <- reverse_app, <- Hs, reverse_involutive. reflexivity.
  - apply Forall_reverse. exact Hl.
Qed.

Lemma trimEnd_last s c : last (trimEnd s) = Some c -> is_space c = false.
Proof.
  unfold trimEnd. rewrite last_reverse. apply trimStart_head.
Qed.

Lemma trimEnd_fixed s :
  (forall c, last s = Some c -> is_space c = false) -> trimEnd s = s.
Proof.
  intros H. unfold trimEnd. rewrite trimStart_fixed.
  - apply reverse_involutive.
  - intros c. rewrite head_reverse. apply H.
Qed.

Lemma trim_trimmed_of s : trimmed_of s (trim s).
Proof.
  unfold trim.
  destruct (trimStart_split s) as [l [Hs Hl]].
  destruct (trimEnd_split (trimStart s)) as [r [Hm Hr]].
  exists l, r. repeat split; try assumption.
  - rewrite <- Hm. exact Hs.
  - intros c Hc. apply (trimStart_head s).
    rewrite Hm. destruct (trimEnd (trimStart s)); [discriminate | exact Hc].
  - apply trimEnd_last.
Qed.

Lemma trim_fixed s : clean_ends s -> trim s = s.
Proof.
  intros [Hh Hl]. unfold trim.
  rewrite (trimStart_fixed s Hh). apply trimEnd_fixed, Hl.
Qed.

(** The trimmed middle is unique: the specification's words determine it. *)
Lemma trimmed_of_unique s m : trimmed_of s m -> m = trim s.
Proof.
  intros (l & r & -> & Hl & Hr & Hh & Ht). unfold trim.
  assert (Hstart : forall t, trimStart (l ++ t) = trimStart t).
  { intros t. induction Hl as [|c l Hc _ IH]; cbn; [reflexivity |].
    rewrite Hc. exact IH. }
  rewrite Hstart.
  destruct m as [|c m'] using rev_ind.
  - cbn. unfold trimEnd.
    assert (Hall : forall u, spaces u -> trimStart u = []).
    { induction 1 as [|d u Hd _ IH]; cbn; [reflexivity | rewrite Hd; exact IH]. }
    rewrite (Hall r Hr). reflexivity.
  - clear IHm'.
    assert (Hc : is_space c = false) by (apply Ht, last_snoc).
    rewrite (trimStart_fixed ((m' ++ [c]) ++ r)).
    + unfold trimEnd. rewrite reverse_app.
      assert (Hrev : forall u t, spaces u -> trimStart (u ++ t) = trimStart t).
      { intros u t Hu. induction Hu as [|d u Hd _ IH]; cbn; [reflexivity |].
        rewrite Hd. exact IH. }
      rewrite Hrev by (apply Forall_reverse; exact Hr).
      rewrite reverse_snoc. cbn [trimStart]. rewrite Hc.
      rewrite reverse_cons, reverse_involutive. reflexivity.
    + intros d Hd. apply Hh.
      rewrite <- Hd. destruct m'; reflexivity.
Qed.

(** *** Collapsing whitespace runs *)

(** The scan of [/\s+/g], one code unit at a time. *)
Lemma replace_space_runs_cons c t :
  replace_space_runs (c :: t) =
  if is_space c then
    match t with
    | [] => [SPACE]
    | d :: _ => if is_space d then replace_space_runs t
                else SPACE :: replace_space_runs t
    end
  else c :: replace_space_runs t.
Proof.
  destruct t as [|d v]; cbn; [reflexivity |].
  destruct (is_space c), (is_space d); reflexivity.
Qed.

Lemma runs_cons c t :
  runs (c :: t) =
  match runs t with
  | (b, r) :: more =>
      if Bool.eqb b (is_space c) then (b, c :: r) :: more
      else (is_space c, [c]) :: (b, r) :: more
  | [] => [(is_space c, [c])]
  end.
Proof. reflexivity. Qed.

Lemma runs_head d v :
  exists r more, runs (d :: v) = (is_space d, d :: r) :: more.
Proof.
  cbn. destruct (runs v) as [|[b r] more]; [by exists [], [] |].
  destruct (Bool.eqb b (is_space d)) eqn:Hb.
  - apply Bool.eqb_prop in Hb. subst b. by exists r, more.
  - by exists [], ((b, r) :: more).
Qed.

Lemma collapse_runs_cons c t :
  collapse_runs (c :: t) =
  if is_space c then
    match t with
    | [] => [SPACE]
    | d :: _ => if is_space d then collapse_runs t
                else SPACE :: collapse_runs t
    end
  else c :: collapse_runs t.
Proof.
  destruct t as [|d v].
  - cbn. destruct (is_space c); reflexivity.
  - unfold collapse_runs. rewrite (runs_cons c (d :: v)).
    destruct (runs_head d v) as (r & more & ->).
    destruct (is_space c), (is_space d); reflexivity.
Qed.

Lemma replace_space_runs_collapse s : replace_space_runs s = collapse_runs s.
Proof.
  induction s as [|c t IH]; [reflexivity |].
  rewrite replace_space_runs_cons, collapse_runs_cons, IH. reflexivity.
Qed.

(** The runs partition the string, each run is of one kind and not empty,
    and neighbouring runs are of different kinds: they are maximal. *)
Lemma runs_concat s : concat (List.map snd (runs s)) = s.
Proof.
  induction s as [|c t IH]; [reflexivity |]. cbn.
  destruct (runs t) as [|[b r] more]; cbn in *; [by rewrite <- IH |].
  destruct (Bool.eqb b (is_space c)); cbn; by rewrite <- IH.
Qed.

Lemma runs_uniform s :
  Forall (fun run : bool * jsstring =>
            snd run <> [] /\ Forall (fun c => is_space c = fst run) (snd run))
         (runs s).
Proof.
  induction s as [|c t IH]; [constructor |]. rewrite runs_cons.
  destruct (runs t) as [|[b r] more].
  - repeat constructor. discriminate.
  - inversion_clear IH as [|? ? [Hne Hr] Hmore].
    destruct (Bool.eqb b (is_space c)) eqn:Hb.
    + apply Bool.eqb_prop in Hb. constructor; [| exact Hmore].
      split; [discriminate |]. constructor; [by symmetry | exact Hr].
    + constructor; [split; [discriminate | by repeat constructor] |].
      constructor; [by split | exact Hmore].
Qed.

Lemma runs_alternating s : alternating (runs s).
Proof.
  induction s as [|c t IH]; [exact I |]. rewrite runs_cons.
  destruct (runs t) as [|[b r] more]; [exact I |].
  destruct (Bool.eqb b (is_space c)) eqn:Hb.
  - exact IH.
  - split; [| exact IH]. cbn [fst]. intros Heq.
    by rewrite Heq, Bool.eqb_reflx in Hb.
Qed.

Lemma replace_space_runs_idem t :
  replace_space_runs (replace_space_runs t) = replace_space_runs t.
Proof.
  induction t as [|c t IH]; [reflexivity |].
  rewrite (replace_space_runs_cons c t).
  destruct (is_space c) eqn:Hc.
  - destruct t as [|d v]; [reflexivity |].
    destruct (is_space d) eqn:Hd; [exact IH |].
    rewrite (replace_space_runs_cons d v), Hd in IH |- *.
    rewrite (replace_space_runs_cons SPACE), is_space_SPACE, Hd.
    by rewrite IH.
  - rewrite (replace_space_runs_cons c), Hc. by rewrite IH.
Qed.

Lemma replace_space_runs_nil t : replace_space_runs t = [] -> t = [].
Proof.
  induction t as [|c t IH]; [reflexivity |].
  rewrite replace_space_runs_cons.
  destruct (is_space c); [| discriminate].
  destruct t as [|d v]; [discriminate |].
  destruct (is_space d); [| discriminate].
  intros H. specialize (IH H). discriminate.
Qed.

Lemma replace_space_runs_head t c :
  (forall d, head t = Some d -> is_space d = false) ->
  head (replace_space_runs t) = Some c -> is_space c = false.
Proof.
  destruct t as [|d v]; [discriminate |].
  intros H. rewrite replace_space_runs_cons, (H d eq_refl).
  cbn. intros [= <-]. exact (H d eq_refl).
Qed.

Lemma replace_space_runs_last t c :
  (forall d, last t = Some d -> is_space d = false) ->
  last (replace_space_runs t) = Some c -> is_space c = false.
Proof.
  induction t as [|d v IH]; [discriminate |].
  intros H. rewrite replace_space_runs_cons.
  destruct v as [|e v'].
  - destruct (is_space d) eqn:Hd.
    + by rewrite (H d eq_refl) in Hd.
    + cbn. intros [= <-]. exact Hd.
  - assert (Hv : forall x, last (e :: v') = Some x -> is_space x = false)
      by (intros x Hx; apply H; by rewrite last_cons_cons).
    assert (Hne : replace_space_runs (e :: v') <> [])
      by (intros Hnil; by apply replace_space_runs_nil in Hnil).
    destruct (replace_space_runs (e :: v')) as [|y ys] eqn:Hy; [done |].
    destruct (is_space d), (is_space e);
      rewrite ?last_cons_cons; by apply IH.
Qed.

Lemma replace_space_runs_clean t :
  clean_ends t -> clean_ends (replace_space_runs t).
Proof.
  intros [Hh Hl]. split; intros c.
  - by apply replace_space_runs_head.
  - by apply replace_space_runs_last.
Qed.

Lemma replace_space_runs_allowed t :
  Forall allowed_char t -> Forall allowed_char (replace_space_runs t).
Proof.
  induction 1 as [|c t Hc Ht IH]; [constructor |].
  rewrite replace_space_runs_cons.
  destruct (is_space c).
  - destruct t as [|d v]; [repeat constructor; apply allowed_SPACE |].
    destruct (is_space d); [exact IH |].
    constructor; [apply allowed_SPACE | exact IH].
  - by constructor.
Qed.

(** *** Removing the characters outside the class *)

Lemma replace_unwanted_strip s : replace_unwanted s = strip_disallowed s.
Proof.
  unfold strip_disallowed.
  change (lit ".,!?()-") with [46; 44; 33; 63; 40; 41; 45].
  induction s as [|c t IH]; [reflexivity |]. cbn [replace_unwanted List.filter].
  replace (is_word c || is_space c || existsb (N.eqb c) [46; 44; 33; 63; 40; 41; 45])
    with (in_kept_class c).
  - destruct (in_kept_class c); cbn; by rewrite IH.
  - unfold in_kept_class. cbn [existsb].
    by rewrite orb_false_r, !orb_assoc.
Qed.

Lemma replace_unwanted_allowed s : Forall allowed_char (replace_unwanted s).
Proof.
  induction s as [|c t IH]; cbn; [constructor |].
  destruct (in_kept_class c) eqn:Hc; cbn; [| exact IH].
  constructor; [by apply in_kept_class_allowed | exact IH].
Qed.

Lemma replace_unwanted_fixed s :
  Forall allowed_char s -> replace_unwanted s = s.
Proof.
  induction 1 as [|c t Hc Ht IH]; cbn; [reflexivity |].
  apply in_kept_class_allowed in Hc. rewrite Hc. cbn. by rewrite IH.
Qed.

Lemma trim_allowed s : Forall allowed_char s -> Forall allowed_char (trim s).
Proof.
  intros H. destruct (trim_trimmed_of s) as (l & r & Hs & _).
  rewrite Hs in H. apply Forall_app in H as [_ H].
  by apply Forall_app in H as [H _].
Qed.

Lemma allowed_forallb s :
  forallb in_kept_class s = true -> Forall allowed_char s.
Proof.
  intros H. apply Forall_forall. intros c Hc.
  apply in_kept_class_allowed.
  rewrite forallb_forall in H. apply H. by apply list_elem_of_In.
Qed.

Lemma processContent_allowed content : Forall allowed_char (processContent content).
Proof.
  destruct content as [| | | | |s|]; try constructor.
  cbn. destruct s; cbn; [constructor | apply replace_unwanted_allowed].
Qed.

(** C8: a value that is not a string, or is the empty string, is normalized
    to the empty string (the function is total: nothing is thrown); a
    string is normalized to its trimmed middle, with every whitespace run
    collapsed to one space and then every character outside the allowed set
    removed. *)
Theorem processContent_spec (content : jsval) :
  match content with
  | JStr (c :: t) =>
      exists m, trimmed_of (c :: t) m /\
        processContent content = strip_disallowed (collapse_runs m)
  | _ => processContent content = []
  end.
Proof.
  destruct content as [| | | | |[|c t]|]; try reflexivity.
  exists (trim (c :: t)). split; [apply trim_trimmed_of |].
  unfold processContent. cbn [truthy negb].
  by rewrite replace_space_runs_collapse, replace_unwanted_strip.
Qed.

(** *** Tokens *)

Lemma tokens_from_spaces (r cur : jsstring) :
  spaces r -> tokens_from cur r = closed_token cur.
Proof.
  intros Hr. revert cur. induction Hr as [|c r Hc _ IH]; intros cur; [reflexivity |].
  cbn [tokens_from]. rewrite Hc, (IH []). apply app_nil_r.
Qed.

Lemma tokens_from_app_spaces (u r cur : jsstring) :
  spaces r -> tokens_from cur (u ++ r) = tokens_from cur u.
Proof.
  intros Hr. revert cur. induction u as [|c u IH]; intros cur.
  - by apply tokens_from_spaces.
  - cbn [app tokens_from]. destruct (is_space c); by rewrite IH.
Qed.

Lemma tokens_trim s : tokens (trim s) = tokens s.
Proof.
  unfold tokens, trim.
  assert (Hstart : tokens_from [] (trimStart s) = tokens_from [] s).
  { induction s as [|c t IH]; [reflexivity |]. cbn [trimStart tokens_from].
    destruct (is_space c) eqn:Hc; [exact IH |].
    cbn [tokens_from]. by rewrite Hc. }
  destruct (trimEnd_split (trimStart s)) as [r [Hs Hr]].
  rewrite <- Hstart. rewrite Hs at 2. by rewrite tokens_from_app_spaces.
Qed.

Lemma tokens_from_nonempty (t cur : jsstring) (d : N) :
  last t = Some d -> is_space d = false -> tokens_from cur t <> [].
Proof.
  revert cur. induction t as [|c t IH]; intros cur Hd Hns; [discriminate |].
  cbn [tokens_from]. destruct t as [|c' t'].
  - injection Hd as ->. rewrite Hns. by destruct cur.
  - rewrite last_cons_cons in Hd.
    destruct (is_space c).
    + intros Hnil. apply app_eq_nil in Hnil as [_ Hnil]. by apply (IH [] Hd Hns).
    + by apply IH.
Qed.

Lemma join_cons_more (sep p : jsstring) (rest : list jsstring) :
  rest <> [] -> join sep (p :: rest) = p ++ sep ++ join sep rest.
Proof. by destruct rest. Qed.

(** A collapsed string without trailing whitespace is its tokens joined by
    single spaces, after one space if it begins with whitespace. *)
Lemma replace_space_runs_tokens (t : jsstring) :
  (forall d, last t = Some d -> is_space d = false) ->
  (forall cur, cur <> [] ->
     reverse cur ++ replace_space_runs t = join [SPACE] (tokens_from cur t)) /\
  replace_space_runs t =
    match t with
    | c :: _ => if is_space c then [SPACE] else []
    | [] => []
    end ++ join [SPACE] (tokens_from [] t).
Proof.
  induction t as [|c t IH]; intros Hlast.
  - split; [| reflexivity]. intros [|x cur] Hcur; [done |].
    cbn [tokens_from closed_token join replace_space_runs]. apply app_nil_r.
  - assert (Hlast' : forall d, last t = Some d -> is_space d = false).
    { intros d Hd. apply Hlast. destruct t; [discriminate |].
      by rewrite last_cons_cons. }
    destruct (IH Hlast') as [IH1 IH2]. clear IH.
    rewrite replace_space_runs_cons. cbn [tokens_from].
    destruct (is_space c) eqn:Hc.
    + destruct t as [|d t'].
      { by rewrite (Hlast c eq_refl) in Hc. }
      assert (Hne : tokens_from [] (d :: t') <> []).
      { destruct (last (d :: t')) as [e|] eqn:He.
        - apply (tokens_from_nonempty _ _ e He), Hlast'. reflexivity.
        - by apply last_None in He. }
      assert (HE : (if is_space d then replace_space_runs (d :: t')
                    else SPACE :: replace_space_runs (d :: t'))
                   = SPACE :: join [SPACE] (tokens_from [] (d :: t'))).
      { rewrite IH2. by destruct (is_space d). }
      rewrite HE. split; [| reflexivity].
      intros [|x cur] Hcur; [done |].
      cbn [closed_token app]. by rewrite (join_cons_more _ _ _ Hne).
    + split.
      * intros cur Hcur. rewrite <- (IH1 (c :: cur)) by done.
        by rewrite reverse_cons, <- app_assoc.
      * by rewrite <- (IH1 [c]).
Qed.

Lemma replace_space_runs_trim_tokens s :
  replace_space_runs (trim s) = join [SPACE] (tokens s).
Proof.
  rewrite <- tokens_trim.
  destruct (trim_trimmed_of s) as (_ & _ & _ & _ & _ & Hhead & Hlast).
  destruct (replace_space_runs_tokens (trim s) Hlast) as [_ ->].
  destruct (trim s) as [|c t]; [reflexivity |].
  by rewrite (Hhead c eq_refl).
Qed.

Lemma replace_unwanted_app u w :
  replace_unwanted (u ++ w) = replace_unwanted u ++ replace_unwanted w.
Proof.
  induction u as [|c u IH]; [reflexivity |]. cbn [app replace_unwanted].
  destruct (in_kept_class c); cbn [negb app]; by rewrite IH.
Qed.

Lemma replace_unwanted_join (toks : list jsstring) :
  replace_unwanted (join [SPACE] toks)
  = join [SPACE] (List.map replace_unwanted toks).
Proof.
  induction toks as [|p [|q rest] IH]; [reflexivity | reflexivity |].
  change (join [SPACE] (p :: q :: rest))
    with (p ++ [SPACE] ++ join [SPACE] (q :: rest)).
  rewrite !replace_unwanted_app, IH. reflexivity.
Qed.

(** The normalizer, token by token: the tokens of the input, each without
    its characters outside the class, joined by single spaces. *)
Lemma processContent_tokens s :
  processContent (JStr s)
  = join [SPACE] (List.map replace_unwanted (tokens s)).
Proof.
  destruct s as [|c t]; [reflexivity |].
  unfold processContent. cbn [truthy negb].
  by rewrite replace_space_runs_trim_tokens, replace_unwanted_join.
Qed.

Lemma tokens_from_push (tok cur rest : jsstring) :
  Forall (fun c => is_space c = false) tok ->
  tokens_from cur (tok ++ rest) = tokens_from (reverse tok ++ cur) rest.
Proof.
  intros Htok. revert cur. induction Htok as [|c tok Hc _ IH]; intros cur;
    [reflexivity |].
  cbn [app tokens_from]. rewrite Hc, IH, reverse_cons.
  by rewrite <- app_assoc.
Qed.

Lemma closed_token_reverse (p : jsstring) :
  closed_token (reverse p) = List.filter nonempty_token [p].
Proof.
  destruct p as [|c p] using rev_ind; [reflexivity |].
  rewrite reverse_snoc. cbn [closed_token].
  rewrite <- (reverse_snoc p c), reverse_involutive.
  by destruct p.
Qed.

Lemma tokens_join (toks : list jsstring) :
  Forall (Forall (fun c => is_space c = false)) toks ->
  tokens (join [SPACE] toks) = List.filter nonempty_token toks.
Proof.
  unfold tokens. induction toks as [|p [|q rest] IH]; intros Htoks.
  - reflexivity.
  - inversion_clear Htoks as [|? ? Hp _]. cbn [join].
    pose proof (tokens_from_push p [] [] Hp) as Hpush.
    rewrite !app_nil_r in Hpush. rewrite Hpush.
    apply closed_token_reverse.
  - inversion_clear Htoks as [|? ? Hp Hrest].
    change (join [SPACE] (p :: q :: rest))
      with (p ++ SPACE :: join [SPACE] (q :: rest)).
    rewrite (tokens_from_push p [] _ Hp), app_nil_r.
    cbn [tokens_from]. rewrite is_space_SPACE, (IH Hrest), closed_token_reverse.
    by rewrite <- List.filter_app.
Qed.

Lemma tokens_from_free (s cur : jsstring) :
  Forall (fun c => is_space c = false) cur ->
  Forall (Forall (fun c => is_space c = false)) (tokens_from cur s).
Proof.
  revert cur. induction s as [|c s IH]; intros cur Hcur; cbn [tokens_from].
  - destruct cur; constructor; [by apply Forall_reverse | constructor].
  - destruct (is_space c) eqn:Hc.
    + apply Forall_app. split; [| by apply IH].
      destruct cur; constructor; [by apply Forall_reverse | constructor].
    + apply IH. by constructor.
Qed.

Lemma replace_unwanted_Forall (P : N -> Prop) (t : jsstring) :
  Forall P t -> Forall P (replace_unwanted t).
Proof.
  induction 1 as [|c t Hc _ IH]; cbn [replace_unwanted]; [constructor |].
  destruct (in_kept_class c); cbn [negb]; [by constructor | exact IH].
Qed.

Lemma replace_unwanted_twice t :
  replace_unwanted (replace_unwanted t) = replace_unwanted t.
Proof. apply replace_unwanted_fixed, replace_unwanted_allowed. Qed.

(** Two passes of the normalizer, token by token: as one pass, but the
    tokens that lost all their characters are gone with their spaces. *)
Lemma processContent_twice_tokens s :
  processContent (JStr (processContent (JStr s)))
  = join [SPACE]
      (List.filter nonempty_token (List.map replace_unwanted (tokens s))).
Proof.
  rewrite (processContent_tokens (processContent (JStr s))), processContent_tokens.
  rewrite tokens_join.
  - f_equal. induction (tokens s) as [|p l IH]; [reflexivity |].
    cbn [List.map List.filter].
    destruct (nonempty_token (replace_unwanted p)); cbn [List.map];
      by rewrite ?replace_unwanted_twice, IH.
  - apply Forall_forall. intros tok Htok.
    apply list_elem_of_In, in_map_iff in Htok as (t & <- & Ht).
    apply replace_unwanted_Forall.
    pose proof (tokens_from_free s [] (List.Forall_nil _)) as Hfree.
    rewrite Forall_forall in Hfree. apply Hfree. by apply list_elem_of_In.
Qed.

Lemma replace_unwanted_nonempty t :
  nonempty_token (replace_unwanted t) = existsb in_kept_class t.
Proof.
  induction t as [|c t IH]; [reflexivity |]. cbn [replace_unwanted existsb].
  by destruct (in_kept_class c).
Qed.

Lemma filter_nonempty_all (toks : list jsstring) :
  List.filter nonempty_token (List.map replace_unwanted toks)
    = List.map replace_unwanted toks <->
  forallb (existsb in_kept_class) toks = true.
Proof.
  induction toks as [|p toks IH]; [done |].
  cbn [List.map List.filter forallb].
  rewrite replace_unwanted_nonempty.
  destruct (existsb in_kept_class p); cbn [andb].
  - rewrite <- IH. split; [by intros [= ->] | by intros ->].
  - split; [| discriminate]. intros H.
    pose proof (List.filter_length_le nonempty_token (List.map replace_unwanted toks)) as Hle.
    rewrite H in Hle. cbn [length] in Hle. lia.
Qed.

Lemma length_join (toks : list jsstring) :
  length (join [SPACE] toks) = (length (concat toks) + (length toks - 1))%nat.
Proof.
  induction toks as [|p [|q rest] IH]; [reflexivity | |].
  - cbn [join concat length]. rewrite app_nil_r. lia.
  - change (join [SPACE] (p :: q :: rest))
      with (p ++ SPACE :: join [SPACE] (q :: rest)).
    change (concat (p :: q :: rest)) with (p ++ concat (q :: rest)).
    rewrite !length_app. cbn [length] in IH |- *. rewrite IH. lia.
Qed.

Lemma concat_filter_nonempty (toks : list jsstring) :
  concat (List.filter nonempty_token toks) = concat toks.
Proof.
  induction toks as [|[|c p] toks IH]; [reflexivity | exact IH |].
  cbn [List.filter nonempty_token concat]. by rewrite IH.
Qed.

Lemma filter_nonempty_shorter (toks : list jsstring) :
  List.filter nonempty_token toks <> toks ->
  (length (List.filter nonempty_token toks) < length toks)%nat.
Proof.
  induction toks as [|p toks IH]; [done |]. cbn [List.filter].
  pose proof (List.filter_length_le nonempty_token toks) as Hle.
  destruct (nonempty_token p); cbn [length]; [| lia].
  intros Hne. assert (Hlt := IH ltac:(congruence)). lia.
Qed.

(** C3, as the code has it: normalizing twice gives what normalizing once
    gives exactly on the values that are not strings and on the strings in
    which every whitespace-delimited token holds a character of the allowed
    set, or which hold at most one token. *)
Theorem processContent_idempotent_iff (x : jsval) :
  processContent (JStr (processContent x)) = processContent x <->
  idempotent_domain x.
Proof.
  destruct x as [| | | | |s|]; try done.
  unfold idempotent_domain, every_token_kept.
  rewrite processContent_twice_tokens, processContent_tokens.
  rewrite <- filter_nonempty_all.
  set (toks := List.map replace_unwanted (tokens s)).
  assert (Hlen : length toks = length (tokens s)) by apply length_map.
  rewrite <- Hlen. split.
  - intros Heq.
    destruct (list_eq_dec (List.filter nonempty_token toks) toks) as [Hall|Hsome];
      [by left | right].
    apply filter_nonempty_shorter in Hsome.
    apply (f_equal length) in Heq.
    rewrite !length_join, concat_filter_nonempty in Heq. lia.
  - intros [-> | Hone]; [reflexivity |].
    destruct toks as [|[|c p] [|q rest]]; try reflexivity; cbn [length] in Hone; lia.
Qed.

Lemma processContent_idempotent_iff_witness :
  idempotent_domain (JStr (lit " What's   your <refund> policy? ")) /\
  processContent (JStr (processContent (JStr (lit " What's   your <refund> policy? "))))
  = processContent (JStr (lit " What's   your <refund> policy? ")).
Proof.
  assert (H : idempotent_domain (JStr (lit " What's   your <refund> policy? "))).
  { left. vm_compute. reflexivity. }
  split; [exact H |].
  exact (proj2 (processContent_idempotent_iff _) H).
Defined.

(** The domain on some inputs: a token that mixes kept and removed
    characters, a single token that is removed whole, and a token between
    two others that is removed whole. *)
Example idempotent_domain_samples :
  idempotent_domain (JStr (lit "a#b")) /\
  idempotent_domain (JStr (lit "Office hours: 9-5")) /\
  idempotent_domain (JStr (lit " # ")) /\
  ~ idempotent_domain (JStr (lit "a # b")) /\
  ~ idempotent_domain (JStr (lit "# #")).
Proof.
  repeat split; try (left; vm_compute; reflexivity);
    try (right; vm_compute; lia);
    intros [H|H]; vm_compute in H; (discriminate H || lia).
Qed.

(** X25: the normalizer, in terms of the input's whitespace-delimited
    tokens: its result is those tokens, in order, each without its
    characters outside the class, joined by single spaces (a token that
    loses all its characters leaves an empty piece between its spaces). *)
Theorem processContent_by_tokens (s : jsstring) :
  processContent (JStr s)
  = join [SPACE] (List.map strip_disallowed (tokens s)).
Proof.
  rewrite processContent_tokens. f_equal.
  apply List.map_ext. intros t. apply replace_unwanted_strip.
Qed.

(** C3, as the specification states it, fails: removing [#] from [a # b]
    leaves two spaces next to each other, which a second pass collapses. *)
Lemma processContent_not_idempotent :
  processContent (JStr (processContent (JStr (lit "a # b"))))
  <> processContent (JStr (lit "a # b")).
Proof. vm_compute. discriminate. Qed.

End NormalizerFacts.

(** ** The answering path *)

Section ChatbotFacts.

Lemma startsWith_spec s p : startsWith s p = true <-> exists b, s = p ++ b.
Proof.
  revert s. induction p as [|a p IH]; intros s.
  - destruct s; cbn; split; eauto.
  - destruct s as [|b s]; cbn.
    + split; [discriminate | intros [? [=]]].
    + rewrite andb_true_iff, N.eqb_eq, IH. split.
      * intros [-> [t ->]]. by exists t.
      * intros [t [= -> ->]]. eauto.
Qed.

Lemma includes_spec s p : includes s p = true <-> occurs_in p s.
Proof.
  unfold occurs_in. induction s as [|c s IH].
  - cbn [includes]. rewrite orb_false_r, startsWith_spec. split.
    + intros [b ->]. by exists [], b.
    + intros (a & b & H). destruct a; [by exists b | discriminate].
  - cbn [includes]. rewrite orb_true_iff, startsWith_spec, IH. split.
    + intros [[b ->] | (a & b & ->)]; [by exists [], b | by exists (c :: a), b].
    + intros ([|d a] & b & H); [left; by exists b |].
      injection H as -> ->. right. by exists a, b.
Qed.

Lemma occurs_in_suffix p a s : occurs_in p s -> occurs_in p (a ++ s).
Proof.
  intros (x & y & ->). exists (a ++ x), y. by rewrite <- app_assoc.
Qed.

Lemma join_with_separator (sep : jsstring) (parts : list jsstring) :
  match parts with
  | [] => join sep parts = []
  | _ => join sep parts ++ sep = concat (List.map (fun p => p ++ sep) parts)
  end.
Proof.
  induction parts as [|p [|q rest] IH]; cbn.
  - reflexivity.
  - by rewrite app_nil_r.
  - cbn in IH. by rewrite <- IH, <- !app_assoc.
Qed.

(** After collapsing, the only whitespace left is the plain space, so a
    normalized chunk holds no line break and the blank-line separator of
    the context block is unambiguous. *)
Lemma replace_space_runs_plain t :
  Forall (fun c => is_space c = true -> c = SPACE) (replace_space_runs t).
Proof.
  induction t as [|c t IH]; [constructor |].
  rewrite replace_space_runs_cons.
  destruct (is_space c) eqn:Hc.
  - destruct t as [|d v]; [by repeat constructor |].
    destruct (is_space d); [exact IH | by constructor].
  - constructor; [congruence | exact IH].
Qed.

Lemma processContent_no_line_break content :
  Forall (fun c => c <> 10) (processContent content).
Proof.
  assert (H : forall u, Forall (fun c => is_space c = true -> c = SPACE) u ->
                        Forall (fun c => c <> 10) (replace_unwanted u)).
  { induction 1 as [|c u Hc _ IH]; cbn; [constructor |].
    destruct (in_kept_class c); cbn; [| exact IH].
    constructor; [| exact IH]. intros ->. by specialize (Hc eq_refl). }
  destruct content as [| | | | |s|]; try constructor.
  cbn. destruct s; cbn [negb]; [constructor |].
  apply H, replace_space_runs_plain.
Qed.

(** C5: the context block is the retrieved chunks' normalized texts, in the
    order retrieved, each followed by a blank line except the last; the
    prompt embeds the block and the normalized query in the fixed template,
    and holds the refusal sentence and the suggestion verbatim.  The marker
    the webhook looks for is part of the refusal sentence and survives
    normalization. *)
Theorem build_prompt_spec (relevantDocs : list Document) (processedQuery : jsstring) :
  let chunk := fun doc => processContent (JStr (pageContent doc)) in
  let context := build_context relevantDocs in
  match relevantDocs with
  | [] => context = []
  | _ => context ++ NL ++ NL =
         concat (List.map (fun doc => chunk doc ++ NL ++ NL) relevantDocs)
  end /\
  build_prompt context processedQuery =
    prompt_head ++ context ++ prompt_mid ++ processedQuery ++ prompt_tail /\
  occurs_in (DQUOTE ++ REFUSAL ++ DQUOTE) (build_prompt context processedQuery) /\
  occurs_in (DQUOTE ++ SUGGESTION ++ DQUOTE) (build_prompt context processedQuery) /\
  includes (processContent (JStr (REFUSAL ++ lit " " ++ SUGGESTION)))
           INSUFFICIENT_MARKER = true.
Proof.
  intros chunk context. split; [| split; [reflexivity |]].
  - subst context. unfold build_context.
    pose proof (join_with_separator (NL ++ NL) (List.map chunk relevantDocs)) as H.
    rewrite List.map_map in H.
    destruct relevantDocs; exact H.
  - unfold build_prompt. split; [| split].
    + do 4 apply occurs_in_suffix. apply includes_spec. vm_compute. reflexivity.
    + do 4 apply occurs_in_suffix. apply includes_spec. vm_compute. reflexivity.
    + vm_compute. reflexivity.
Qed.

Lemma queryPDF_Ok (this : PDFChatbot) (query : jsval) (result : QueryResult) :
  queryPDF this query = Ok result ->
  exists store relevantDocs content,
    vectorStore this = Some store /\
    asRetriever store 4 (processContent query) = Ok relevantDocs /\
    llm this (build_prompt (build_context relevantDocs) (processContent query))
      = Ok content /\
    result = {| answer := processContent content |}.
Proof.
  unfold queryPDF, rethrow.
  destruct (vectorStore this) as [store|]; [| discriminate].
  destruct (asRetriever store 4 (processContent query)) as [docs|] eqn:Hdocs;
    [| discriminate].
  destruct (llm this _) as [content|] eqn:Hllm; [| discriminate].
  intros [= <-]. by exists store, docs, content.
Qed.

(** C10: an answer of the answering path is the normalizer applied to what
    the completion collaborator returned for the assembled prompt, so all
    its characters are in the allowed set. *)
Theorem queryPDF_answer_normalized (this : PDFChatbot) (query : jsval)
    (result : QueryResult) :
  queryPDF this query = Ok result ->
  (exists store relevantDocs content,
     vectorStore this = Some store /\
     asRetriever store 4 (processContent query) = Ok relevantDocs /\
     llm this (build_prompt (build_context relevantDocs) (processContent query))
       = Ok content /\
     answer result = processContent content) /\
  Forall allowed_char (answer result).
Proof.
  intros H. apply queryPDF_Ok in H as (store & docs & content & Hs & Hd & Hl & ->).
  split; [by exists store, docs, content |].
  apply processContent_allowed.
Qed.

Lemma queryPDF_answer_normalized_witness :
  queryPDF Sample.answering_bot (JStr (lit "What are your office hours?"))
    = Ok {| answer := lit "Office hours 9-5, Monday to Friday." |} /\
  Forall allowed_char (lit "Office hours 9-5, Monday to Friday.").
Proof.
  assert (H : queryPDF Sample.answering_bot (JStr (lit "What are your office hours?"))
              = Ok {| answer := lit "Office hours 9-5, Monday to Friday." |})
    by (vm_compute; reflexivity).
  split; [exact H |].
  exact (proj2 (queryPDF_answer_normalized _ _ _ H)).
Defined.

(** The answering path with no index: nothing is retrieved, nothing is
    sent to the model, the call throws at once. *)
Lemma queryPDF_not_loaded (this : PDFChatbot) (query : jsval) :
  vectorStore this = None ->
  queryPDF this query = Throw (lit "PDF not loaded. Call loadAndProcessPDF first.").
Proof. unfold queryPDF. by intros ->. Qed.

Lemma startup_not_built_no_service n model built sheetdbClient :
  index_built (startup_after n model built sheetdbClient) = false ->
  sheetdbService (startup_after n model built sheetdbClient) = None.
Proof.
  destruct n as [|[|[|n]]]; cbn; (reflexivity || discriminate).
Qed.

(** C4: while the index has not been built, [queryPDF] throws its
    not-loaded error whatever the collaborators would answer, and at every
    point of the startup block before the index is assigned the webhook
    answers 503 with the not-initialized text and touches nothing; a
    fallback handler run on such a chatbot queues the processing apology,
    not an answer and not the contact request, and stores no context. *)
Theorem retrieval_before_build_not_ready :
  (forall (this : PDFChatbot) (query : jsval),
     vectorStore this = None ->
     queryPDF this query =
       Throw (lit "PDF not loaded. Call loadAndProcessPDF first.")) /\
  (forall n model built sheetdbClient now req rows,
     index_built (startup_after n model built sheetdbClient) = false ->
     dialogflow_webhook (startup_after n model built sheetdbClient) now req rows
       = (Status 503 NOT_READY, rows)) /\
  (forall (this : PDFChatbot) (userQuery : jsval) (w : World),
     vectorStore this = None ->
     exists w',
       handleFallbackIntent this userQuery w = (Ok tt, w') /\
       responses (agent w') =
         responses (agent w) ++ [lit "Sorry, I couldn't process your request right now."] /\
       contexts (agent w') = contexts (agent w) /\
       created w' = created w).
Proof.
  split; [exact queryPDF_not_loaded | split].
  - intros n model built sheetdbClient now req rows Hn.
    unfold dialogflow_webhook.
    rewrite (startup_not_built_no_service _ _ _ _ Hn).
    by destruct (pdfChatbot _).
  - intros this userQuery w Hv.
    unfold handleFallbackIntent, try_catch, bind, await.
    rewrite (queryPDF_not_loaded this userQuery Hv).
    eexists. split; [reflexivity |]. by cbn.
Qed.

Lemma retrieval_before_build_not_ready_witness :
  queryPDF Sample.unloaded_bot (JStr (lit "What are your office hours?"))
    = Throw (lit "PDF not loaded. Call loadAndProcessPDF first.") /\
  dialogflow_webhook
    (startup_after 1 (llm Sample.unloaded_bot) Sample.store
                   (client Sample.accepting_sheet))
    Sample.NOW
    {| body_intent := "PDF_Query_Intent";
       body_queryText := JStr (lit "What are your office hours?");
       body_parameters := ∅;
       body_outputContexts := ∅ |}
    []
  = (Status 503 NOT_READY, []).
Proof.
  destruct retrieval_before_build_not_ready as (Hquery & Hhook & _).
  split.
  - apply Hquery. reflexivity.
  - apply Hhook. reflexivity.
Defined.

End ChatbotFacts.

(** ** The webhook handlers *)

Section HandlerFacts.

Lemma intentMap_lookup bot svc userQuery now :
  intentMap bot svc userQuery now !! "Default Welcome Intent" = Some handleWelcomeIntent /\
  intentMap bot svc userQuery now !! "Default Fallback Intent"
    = Some (handleFallbackIntent bot userQuery) /\
  intentMap bot svc userQuery now !! "PDF_Query_Intent"
    = Some (handleFallbackIntent bot userQuery) /\
  intentMap bot svc userQuery now !! "Collect_User_Info"
    = Some (handleUserInfoIntent svc now).
Proof. unfold intentMap. repeat split; by simplify_map_eq. Qed.

(** The query the handlers close over is the turn's query text whenever
    that is a non-empty string. *)
Lemma userQuery_verbatim (q : jsstring) :
  q <> [] ->
  or_else (or_else (JStr q) (JStr q)) (JStr (lit "No query found")) = JStr q.
Proof. by destruct q. Qed.

Lemma handleFallbackIntent_run bot userQuery w result :
  queryPDF bot userQuery = Ok result ->
  handleFallbackIntent bot userQuery w =
  (Ok tt,
   {| agent :=
        {| intent := intent (agent w);
           query := query (agent w);
           parameters := parameters (agent w);
           contexts :=
             if includes (answer result) INSUFFICIENT_MARKER
             then <["awaiting_user_info" :=
                      {| Context.name := "awaiting_user_info";
                         Context.lifespan := 2;
                         Context.parameters :=
                           Some {[ "original_query" := userQuery ]} |}]>
                    (contexts (agent w))
             else contexts (agent w);
           responses :=
             responses (agent w) ++
             [if includes (answer result) INSUFFICIENT_MARKER
              then CONTACT_REQUEST else answer result] |};
      created := created w |}).
Proof.
  intros H. unfold handleFallbackIntent, try_catch, bind, await. rewrite H.
  change (lit "I do not have enough information") with INSUFFICIENT_MARKER.
  by destruct (includes (answer result) INSUFFICIENT_MARKER).
Qed.

Lemma session_state_awaiting a c :
  contexts a !! "awaiting_user_info" = Some c ->
  (0 < Context.lifespan c)%Z ->
  session_state a = AwaitingContactInfo (stored_original_query a) (Context.lifespan c).
Proof.
  intros Hc Hl. unfold session_state. rewrite Hc.
  by apply Z.ltb_lt in Hl as ->.
Qed.

(** C1: when the answering path yields an answer for a session in state
    Answering, the fallback handler ends normally and sends nothing to the
    sheet; if the marker occurs in the answer, the session is left in
    AwaitingContactInfo with the handler's query as original query and two
    remaining turns, and the contact request is queued; if it does not, the
    session stays in Answering, the answer itself is queued and the context
    store is as it was. *)
Theorem handleFallbackIntent_transition (bot : PDFChatbot) (userQuery : jsval)
    (w : World) (result : QueryResult) :
  session_state (agent w) = Answering ->
  queryPDF bot userQuery = Ok result ->
  exists w',
    handleFallbackIntent bot userQuery w = (Ok tt, w') /\
    created w' = created w /\
    (occurs_in INSUFFICIENT_MARKER (answer result) ->
       session_state (agent w') = AwaitingContactInfo userQuery 2 /\
       responses (agent w') = responses (agent w) ++ [CONTACT_REQUEST]) /\
    (~ occurs_in INSUFFICIENT_MARKER (answer result) ->
       session_state (agent w') = Answering /\
       responses (agent w') = responses (agent w) ++ [answer result] /\
       contexts (agent w') = contexts (agent w)).
Proof.
  intros Hstate Hquery. eexists.
  split; [exact (handleFallbackIntent_run bot userQuery w result Hquery) |].
  split; [reflexivity |]. cbn [agent contexts responses].
  split; intros Hmark.
  - apply includes_spec in Hmark. rewrite Hmark. split; [| reflexivity].
    match goal with
    | |- session_state ?a = _ =>
        rewrite (session_state_awaiting a _ (lookup_insert_eq _ _ _))
    end.
    + unfold stored_original_query, getContext. cbn [contexts].
      rewrite lookup_insert_eq. cbn [Context.parameters Context.lifespan].
      by rewrite lookup_singleton_eq.
    + reflexivity.
  - destruct (includes (answer result) INSUFFICIENT_MARKER) eqn:Hinc.
    + apply includes_spec in Hinc. contradiction.
    + by repeat split.
Qed.

Lemma handleFallbackIntent_transition_witness :
  session_state
    (agent (snd (handleFallbackIntent Sample.refusing_bot
                   (JStr (lit "What is your refund policy?"))
                   Sample.fresh_world)))
  = AwaitingContactInfo (JStr (lit "What is your refund policy?")) 2.
Proof.
  assert (Hstate : session_state Sample.fresh_agent = Answering)
    by reflexivity.
  assert (Hquery :
            queryPDF Sample.refusing_bot (JStr (lit "What is your refund policy?"))
            = Ok {| answer := lit "I do not have enough information to answer this question. Please ask a different question related to the available content." |})
    by (vm_compute; reflexivity).
  destruct (handleFallbackIntent_transition Sample.refusing_bot _
              Sample.fresh_world _ Hstate Hquery)
    as (w' & Hrun & _ & Hyes & _).
  rewrite Hrun. cbn [snd]. apply Hyes.
  apply includes_spec. vm_compute. reflexivity.
Defined.

Lemma handleUserInfoIntent_run svc now w :
  handleUserInfoIntent svc now w =
  (Ok tt,
   {| agent :=
        {| intent := intent (agent w);
           query := query (agent w);
           parameters := parameters (agent w);
           contexts := contexts (agent w);
           responses :=
             responses (agent w) ++
             [match create (client svc) (escalation_record (agent w) now) with
              | Ok _ => ACKNOWLEDGEMENT
              | Throw _ => APOLOGY
              end] |};
      created := created w ++ [escalation_record (agent w) now] |}).
Proof.
  unfold handleUserInfoIntent, addUnresolvedQuery, client_create,
    try_catch, bind, get_agent, ret, throw.
  fold (escalation_record (agent w) now).
  by destruct (create (client svc) (escalation_record (agent w) now)).
Qed.

Lemma session_state_contexts a b :
  contexts a = contexts b -> session_state a = session_state b.
Proof.
  intros H. unfold session_state, stored_original_query, getContext.
  by rewrite H.
Qed.

(** C2, as the code has it: the contact-info handler builds the record
    from the agent's parameters, the stored original query and the current
    time and sends it to the sheet client once; whether the client answers
    or throws, the handler ends normally, queues the acknowledgement on
    success and the apology on failure, and leaves the context store, and so
    the session's state, exactly as it found them.  In state
    AwaitingContactInfo with a non-empty original query, the record's query
    is that original query. *)
Theorem handleUserInfoIntent_outcome (svc : SheetDBService) (now : jsstring)
    (w : World) :
  exists w',
    handleUserInfoIntent svc now w = (Ok tt, w') /\
    created w' = created w ++ [escalation_record (agent w) now] /\
    contexts (agent w') = contexts (agent w) /\
    session_state (agent w') = session_state (agent w) /\
    responses (agent w') =
      responses (agent w) ++
      [match create (client svc) (escalation_record (agent w) now) with
       | Ok _ => ACKNOWLEDGEMENT
       | Throw _ => APOLOGY
       end] /\
    (forall q n,
       session_state (agent w) = AwaitingContactInfo q n ->
       truthy q = true ->
       Escalation.query (escalation_record (agent w) now) = q).
Proof.
  eexists. split; [apply handleUserInfoIntent_run |].
  cbn [agent created contexts responses].
  do 2 (split; [reflexivity |]).
  split; [by apply session_state_contexts |].
  split; [reflexivity |].
  intros q n Hs Hq. cbn [escalation_record Escalation.query].
  unfold session_state in Hs.
  destruct (contexts (agent w) !! "awaiting_user_info") as [c|]; [| discriminate].
  destruct (0 <? Context.lifespan c)%Z; [| discriminate].
  injection Hs as -> _. unfold or_else. by rewrite Hq.
Qed.

Lemma handleUserInfoIntent_outcome_witness :
  exists w',
    handleUserInfoIntent Sample.failing_sheet Sample.NOW Sample.awaiting_world
      = (Ok tt, w') /\
    responses (agent w') = [APOLOGY] /\
    session_state (agent w') = AwaitingContactInfo (JStr (lit "refund policy")) 2 /\
    Escalation.query (escalation_record Sample.awaiting_agent Sample.NOW)
      = JStr (lit "refund policy").
Proof.
  destruct (handleUserInfoIntent_outcome Sample.failing_sheet Sample.NOW
              Sample.awaiting_world)
    as (w' & Hrun & _ & _ & Hstate & Hreply & Hquery).
  exists w'. split; [exact Hrun |]. split; [| split].
  - rewrite Hreply. reflexivity.
  - rewrite Hstate. vm_compute. reflexivity.
  - apply (Hquery (JStr (lit "refund policy")) 2%Z).
    + vm_compute. reflexivity.
    + reflexivity.
Defined.

(** C2, as the specification states it, fails: after a recorded
    contact-info turn the awaiting context is still stored, with its
    original query and its two turns, and the session is not back in
    Answering. *)
Lemma handleUserInfoIntent_keeps_context :
  session_state
    (agent (snd (handleUserInfoIntent Sample.accepting_sheet Sample.NOW
                   Sample.awaiting_world)))
  = AwaitingContactInfo (JStr (lit "refund policy")) 2 /\
  session_state
    (agent (snd (handleUserInfoIntent Sample.accepting_sheet Sample.NOW
                   Sample.awaiting_world)))
  <> Answering /\
  contexts
    (agent (snd (handleUserInfoIntent Sample.accepting_sheet Sample.NOW
                   Sample.awaiting_world)))
  <> ∅.
Proof.
  rewrite handleUserInfoIntent_run. cbn [snd agent contexts].
  assert (H : session_state
                {| intent := intent (agent Sample.awaiting_world);
                   query := query (agent Sample.awaiting_world);
                   parameters := parameters (agent Sample.awaiting_world);
                   contexts := contexts (agent Sample.awaiting_world);
                   responses :=
                     responses (agent Sample.awaiting_world) ++
                     [match create (client Sample.accepting_sheet)
                              (escalation_record (agent Sample.awaiting_world) Sample.NOW) with
                      | Ok _ => ACKNOWLEDGEMENT
                      | Throw _ => APOLOGY
                      end] |}
              = AwaitingContactInfo (JStr (lit "refund policy")) 2)
    by (vm_compute; reflexivity).
  split; [exact H |]. split; [by rewrite H |].
  intros Hempty.
  assert (Hl : contexts (agent Sample.awaiting_world) !! "awaiting_user_info" = None)
    by (rewrite Hempty; apply lookup_empty).
  vm_compute in Hl. discriminate.
Qed.

Lemma no_original_query_undefined a :
  no_original_query a -> stored_original_query a = JUndefined.
Proof.
  unfold no_original_query, stored_original_query, getContext.
  destruct (contexts a !! "awaiting_user_info") as [c|]; [| reflexivity].
  destruct (Context.parameters c) as [ps|]; [| reflexivity].
  by intros ->.
Qed.

(** C9: when no awaiting context is stored, or the stored one carries no
    original query, the contact-info handler still ends normally and still
    sends one record to the sheet client, built from the turn's name and
    email and the current time, and the query of that record is the text
    N/A. *)
Theorem handleUserInfoIntent_without_context (svc : SheetDBService)
    (now : jsstring) (w : World) :
  no_original_query (agent w) ->
  exists w' data,
    handleUserInfoIntent svc now w = (Ok tt, w') /\
    created w' = created w ++ [data] /\
    Escalation.query data = JStr (lit "N/A") /\
    Escalation.name data = parameter (agent w) "name" /\
    Escalation.email data = parameter (agent w) "email" /\
    Escalation.timestamp data = now.
Proof.
  intros H. eexists. exists (escalation_record (agent w) now).
  split; [apply handleUserInfoIntent_run |].
  split; [reflexivity |]. cbn [escalation_record Escalation.query
    Escalation.name Escalation.email Escalation.timestamp].
  by rewrite (no_original_query_undefined _ H).
Qed.

Lemma handleUserInfoIntent_without_context_witness :
  created (snd (handleUserInfoIntent Sample.accepting_sheet Sample.NOW
                  Sample.stray_world))
  = [ {| Escalation.name := JStr (lit "Ana");
         Escalation.email := JStr (lit "ana@x.com");
         Escalation.query := JStr (lit "N/A");
         Escalation.timestamp := Sample.NOW |} ].
Proof.
  assert (Hno : no_original_query (agent Sample.stray_world))
    by (vm_compute; exact I).
  destruct (handleUserInfoIntent_without_context Sample.accepting_sheet
              Sample.NOW Sample.stray_world Hno)
    as (w' & data & Hrun & Hrows & Hq & Hn & He & Ht).
  rewrite Hrun. cbn [snd]. rewrite Hrows.
  destruct data as [n e q t]. cbn in Hq, Hn, He, Ht. subst.
  vm_compute. reflexivity.
Defined.

(** *** Whole turns through the webhook *)

(** A question the corpus cannot answer: the reply is the contact request
    and the awaiting context goes out with the turn's query. *)
Example webhook_unanswerable_turn :
  let g := {| pdfChatbot := Some Sample.refusing_bot;
              sheetdbService := Some Sample.accepting_sheet |} in
  let req := {| body_intent := "Default Fallback Intent";
                body_queryText := JStr (lit "What is your refund policy?");
                body_parameters := ∅;
                body_outputContexts := ∅ |} in
  match dialogflow_webhook g Sample.NOW req [] with
  | (Fulfilled a, rows) =>
      responses a = [CONTACT_REQUEST] /\
      session_state a
        = AwaitingContactInfo (JStr (lit "What is your refund policy?")) 2 /\
      rows = []
  | _ => False
  end.
Proof. vm_compute. by repeat split. Qed.

(** A contact-info turn in a session awaiting it: the record carries the
    stored query and the reply is the acknowledgement. *)
Example webhook_contact_turn :
  let g := {| pdfChatbot := Some Sample.answering_bot;
              sheetdbService := Some Sample.accepting_sheet |} in
  let req := {| body_intent := "Collect_User_Info";
                body_queryText := query Sample.awaiting_agent;
                body_parameters := parameters Sample.awaiting_agent;
                body_outputContexts := contexts Sample.awaiting_agent |} in
  match dialogflow_webhook g Sample.NOW req [] with
  | (Fulfilled a, rows) =>
      responses a = [ACKNOWLEDGEMENT] /\
      rows = [ {| Escalation.name := JStr (lit "Ana");
                  Escalation.email := JStr (lit "ana@x.com");
                  Escalation.query := JStr (lit "refund policy");
                  Escalation.timestamp := Sample.NOW |} ]
  | _ => False
  end.
Proof. vm_compute. by repeat split. Qed.

(** The welcome intent queues the greeting and nothing else. *)
Example webhook_welcome_turn :
  let g := {| pdfChatbot := Some Sample.answering_bot;
              sheetdbService := Some Sample.accepting_sheet |} in
  let req := {| body_intent := "Default Welcome Intent";
                body_queryText := JStr (lit "hi");
                body_parameters := ∅;
                body_outputContexts := ∅ |} in
  match dialogflow_webhook g Sample.NOW req [] with
  | (Fulfilled a, rows) =>
      responses a = [lit "Hi there! How can I assist you today?"] /\
      session_state a = Answering /\ rows = []
  | _ => False
  end.
Proof. vm_compute. by repeat split. Qed.

End HandlerFacts.

(** ** More on the normalizer *)

Section NormalizerMore.

Lemma processContent_fixed_on_allowed (s : jsstring) :
  Forall allowed_char s ->
  processContent (JStr (processContent (JStr s))) = processContent (JStr s).
Proof.
  intros Hs. destruct s as [|c t]; [reflexivity |].
  assert (Hkeep : replace_unwanted (replace_space_runs (trim (c :: t)))
                  = replace_space_runs (trim (c :: t)))
    by (apply replace_unwanted_fixed, replace_space_runs_allowed, trim_allowed, Hs).
  assert (Hm : processContent (JStr (c :: t)) = replace_space_runs (trim (c :: t)))
    by exact Hkeep.
  rewrite Hm.
  destruct (replace_space_runs (trim (c :: t))) as [|d u] eqn:Hd; [reflexivity |].
  unfold processContent. cbn [truthy negb]. rewrite <- Hd.
  rewrite trim_fixed, replace_space_runs_idem; [rewrite Hd; exact Hkeep |].
  apply replace_space_runs_clean.
  destruct (trim_trimmed_of (c :: t)) as (_ & _ & _ & _ & _ & H). exact H.
Qed.

(** X1: whatever the input, a third pass of the normalizer changes nothing:
    the result of two passes is a fixed point. *)
Theorem processContent_stable_after_two (x : jsval) :
  processContent (JStr (processContent (JStr (processContent x))))
  = processContent (JStr (processContent x)).
Proof. apply processContent_fixed_on_allowed, processContent_allowed. Qed.

Lemma visible_space c : is_space c = true -> visible c = false.
Proof. unfold visible. intros ->. apply andb_false_r. Qed.

Lemma filter_visible_trimStart s :
  List.filter visible (trimStart s) = List.filter visible s.
Proof.
  induction s as [|c t IH]; [reflexivity |]. cbn [trimStart].
  destruct (is_space c) eqn:Hc; [| reflexivity].
  cbn [List.filter]. by rewrite (visible_space c Hc).
Qed.

Lemma filter_reverse (f : N -> bool) (l : jsstring) :
  List.filter f (reverse l) = reverse (List.filter f l).
Proof.
  induction l as [|c t IH]; [reflexivity |].
  rewrite reverse_cons, List.filter_app, IH. cbn [List.filter].
  destruct (f c); [by rewrite reverse_cons | by rewrite app_nil_r].
Qed.

Lemma filter_visible_trim s :
  List.filter visible (trim s) = List.filter visible s.
Proof.
  unfold trim, trimEnd.
  rewrite filter_reverse, filter_visible_trimStart, filter_reverse.
  rewrite reverse_involutive. apply filter_visible_trimStart.
Qed.

Lemma filter_visible_replace_space_runs s :
  List.filter visible (replace_space_runs s) = List.filter visible s.
Proof.
  induction s as [|c t IH]; [reflexivity |].
  rewrite replace_space_runs_cons. cbn [List.filter].
  destruct (is_space c) eqn:Hc.
  - rewrite (visible_space c Hc).
    destruct t as [|d v]; [reflexivity |].
    destruct (is_space d); [exact IH |].
    cbn [List.filter]. rewrite (visible_space SPACE is_space_SPACE). exact IH.
  - cbn [List.filter]. by rewrite IH.
Qed.

Lemma filter_visible_replace_unwanted s :
  List.filter visible (replace_unwanted s) = List.filter visible s.
Proof.
  induction s as [|c t IH]; [reflexivity |]. cbn [replace_unwanted List.filter].
  destruct (in_kept_class c) eqn:Hc; cbn [negb List.filter].
  - by rewrite IH.
  - unfold visible at 2. rewrite Hc. exact IH.
Qed.

(** X2: the normalizer neither drops, adds nor reorders a character of the
    class that is not whitespace: letters, digits, underscore and the seven
    punctuation marks come out exactly as they went in. *)
Theorem processContent_keeps_visible (s : jsstring) :
  List.filter visible (processContent (JStr s)) = List.filter visible s.
Proof.
  destruct s as [|c t]; [reflexivity |].
  unfold processContent. cbn [truthy negb].
  by rewrite filter_visible_replace_unwanted, filter_visible_replace_space_runs,
    filter_visible_trim.
Qed.

(** X3: the only whitespace the normalizer leaves is the plain space: no
    tab, line break, no-break space or other member of the whitespace class
    survives. *)
Theorem processContent_plain_spaces (x : jsval) :
  Forall (fun c => is_space c = false \/ c = SPACE) (processContent x).
Proof.
  assert (H : forall u, Forall (fun c => is_space c = true -> c = SPACE) u ->
                        Forall (fun c => is_space c = false \/ c = SPACE)
                               (replace_unwanted u)).
  { induction 1 as [|c u Hc _ IH]; cbn [replace_unwanted]; [constructor |].
    destruct (in_kept_class c); cbn [negb]; [| exact IH].
    constructor; [| exact IH].
    destruct (is_space c); [right; by apply Hc | by left]. }
  destruct x as [| | | | |s|]; try constructor.
  destruct s as [|c t]; [constructor |].
  unfold processContent. cbn [truthy negb].
  apply H, replace_space_runs_plain.
Qed.

Lemma length_trimStart s : (length (trimStart s) <= length s)%nat.
Proof.
  induction s as [|c t IH]; cbn [trimStart]; [lia |].
  destruct (is_space c); cbn [length] in *; lia.
Qed.

Lemma length_replace_space_runs s :
  (length (replace_space_runs s) <= length s)%nat.
Proof.
  induction s as [|c t IH]; [cbn; lia |].
  rewrite replace_space_runs_cons.
  destruct (is_space c).
  - destruct t as [|d v]; [cbn; lia |].
    destruct (is_space d); cbn [length] in *; lia.
  - cbn [length]. lia.
Qed.

Lemma length_replace_unwanted s :
  (length (replace_unwanted s) <= length s)%nat.
Proof.
  induction s as [|c t IH]; cbn [replace_unwanted]; [lia |].
  destruct (in_kept_class c); cbn [negb length]; lia.
Qed.

(** X4: the normalizer never lengthens a string. *)
Theorem processContent_no_longer (s : jsstring) :
  (length (processContent (JStr s)) <= length s)%nat.
Proof.
  destruct s as [|c t]; [cbn; lia |].
  unfold processContent. cbn [truthy negb].
  pose proof (length_replace_unwanted (replace_space_runs (trim (c :: t)))).
  pose proof (length_replace_space_runs (trim (c :: t))).
  assert (length (trim (c :: t)) <= length (c :: t))%nat; [| lia].
  unfold trim, trimEnd. rewrite length_reverse.
  pose proof (length_trimStart (reverse (trimStart (c :: t)))) as H1.
  rewrite length_reverse in H1.
  pose proof (length_trimStart (c :: t)). lia.
Qed.

End NormalizerMore.

(** ** More on the answering path *)

Section ChatbotMore.

(** X6: the ways [queryPDF] can fail are exactly three: the index is not
    built (the not-loaded error), the retriever throws, or the model throws
    on the assembled prompt; in the last two cases the error is thrown on
    unchanged. *)
Theorem queryPDF_failure_modes (this : PDFChatbot) (query : jsval)
    (error : jsstring) :
  queryPDF this query = Throw error <->
  (vectorStore this = None /\
   error = lit "PDF not loaded. Call loadAndProcessPDF first.") \/
  (exists store,
     vectorStore this = Some store /\
     (asRetriever store 4 (processContent query) = Throw error \/
      exists relevantDocs,
        asRetriever store 4 (processContent query) = Ok relevantDocs /\
        llm this (build_prompt (build_context relevantDocs) (processContent query))
          = Throw error)).
Proof.
  unfold queryPDF, rethrow. cbv zeta.
  destruct (vectorStore this) as [store|].
  - destruct (asRetriever store 4 (processContent query)) as [docs|e] eqn:Hr.
    + destruct (llm this _) as [content|e] eqn:Hl; split.
      * discriminate.
      * intros [[[=] _] | (s & [= <-] & [H | (d & Hd & H)])].
        -- congruence.
        -- rewrite Hr in Hd. injection Hd as <-. congruence.
      * intros [= <-]. right. exists store. split; [reflexivity |].
        right. by exists docs.
      * intros [[[=] _] | (s & [= <-] & [H | (d & Hd & H)])].
        -- congruence.
        -- rewrite Hr in Hd. injection Hd as <-. congruence.
    + split.
      * intros [= <-]. right. exists store. split; [reflexivity |]. by left.
      * intros [[[=] _] | (s & [= <-] & [H | (d & Hd & H)])].
        -- congruence.
        -- rewrite Hr in Hd. discriminate Hd.
  - split.
    + intros [= <-]. by left.
    + intros [[_ ->] | (s & [=] & _)]. reflexivity.
Qed.

Lemma queryPDF_failure_modes_witness :
  queryPDF Fixtures.retrieval_failing_bot (JStr (lit "hours?"))
    = Throw (lit "fetch failed") /\
  queryPDF Fixtures.model_failing_bot (JStr (lit "hours?"))
    = Throw (lit "429 Too Many Requests").
Proof.
  split.
  - apply queryPDF_failure_modes. right. exists Fixtures.failing_store.
    split; [reflexivity |]. left. reflexivity.
  - apply queryPDF_failure_modes. right. exists Sample.store.
    split; [reflexivity |]. right. eexists. split; reflexivity.
Defined.

Lemma split_blank_lines_step (acc : jsstring) (c d : N) (t : jsstring) :
  split_blank_lines acc (c :: d :: t) =
  if (c =? 10) && (d =? 10) then reverse acc :: split_blank_lines [] t
  else split_blank_lines (c :: acc) (d :: t).
Proof. reflexivity. Qed.

Lemma split_blank_lines_last (chunk acc : jsstring) :
  Forall (fun c => c <> 10) chunk ->
  split_blank_lines acc chunk = [reverse acc ++ chunk].
Proof.
  revert acc. induction chunk as [|c t IH]; intros acc Hc.
  - by rewrite app_nil_r.
  - inversion_clear Hc as [|? ? Hne Ht].
    destruct t as [|d t'].
    + cbn [split_blank_lines]. by rewrite reverse_cons.
    + rewrite split_blank_lines_step. apply N.eqb_neq in Hne. rewrite Hne.
      cbn [andb]. rewrite (IH (c :: acc) Ht), reverse_cons.
      by rewrite <- app_assoc.
Qed.

Lemma split_blank_lines_piece (chunk acc rest : jsstring) :
  Forall (fun c => c <> 10) chunk ->
  split_blank_lines acc (chunk ++ (NL ++ NL) ++ rest)
  = (reverse acc ++ chunk) :: split_blank_lines [] rest.
Proof.
  revert acc. induction chunk as [|c t IH]; intros acc Hc.
  - change ([] ++ (NL ++ NL) ++ rest) with (10 :: 10 :: rest).
    rewrite split_blank_lines_step. cbn [N.eqb andb]. by rewrite app_nil_r.
  - inversion_clear Hc as [|? ? Hne Ht].
    specialize (IH (c :: acc) Ht). rewrite reverse_cons in IH.
    rewrite <- (app_assoc (reverse acc) [c] t) in IH.
    apply N.eqb_neq in Hne.
    destruct t as [|d t'].
    + change ([c] ++ (NL ++ NL) ++ rest) with (c :: 10 :: 10 :: rest).
      rewrite split_blank_lines_step, Hne. exact IH.
    + change ((c :: d :: t') ++ (NL ++ NL) ++ rest)
        with (c :: d :: (t' ++ (NL ++ NL) ++ rest)).
      rewrite split_blank_lines_step, Hne. exact IH.
Qed.

(** X7: the context block can be taken apart again: splitting it at the
    blank lines gives back the normalized chunks, one for one and in order,
    because a normalized chunk holds no line break. *)
Theorem build_context_split (relevantDocs : list Document) :
  relevantDocs <> [] ->
  split_blank_lines [] (build_context relevantDocs)
  = List.map (fun doc => processContent (JStr (pageContent doc))) relevantDocs.
Proof.
  unfold build_context.
  induction relevantDocs as [|d [|d' rest] IH]; intros Hne; [done | |].
  - cbn [List.map join]. apply split_blank_lines_last, processContent_no_line_break.
  - cbn [List.map join] in IH |- *.
    rewrite split_blank_lines_piece by apply processContent_no_line_break.
    by rewrite IH.
Qed.

Lemma build_context_split_witness :
  split_blank_lines [] (build_context Fixtures.sample_docs)
  = [ lit "Office hours are 9-5 Monday to Friday."; []; lit "Refunds see desk" ].
Proof.
  rewrite (build_context_split Fixtures.sample_docs); [| discriminate].
  vm_compute. reflexivity.
Defined.

Lemma first_line_stop (p r : jsstring) :
  Forall (fun c => c <> 10) p -> first_line (p ++ 10 :: r) = p.
Proof.
  induction 1 as [|c p Hc _ IH]; cbn [app first_line]; [reflexivity |].
  apply N.eqb_neq in Hc. rewrite Hc. by rewrite IH.
Qed.

(** X8: in the prompt the query stays on its own line: what follows the
    text before the query, up to the next line feed, is exactly the
    normalized query, whatever line breaks the raw query held. *)
Theorem build_prompt_query_line (context : jsstring) (query : jsval) :
  first_line
    (drop (length (prompt_head ++ context ++ prompt_mid))
          (build_prompt context (processContent query)))
  = processContent query.
Proof.
  unfold build_prompt.
  replace (prompt_head ++ context ++ prompt_mid ++ processContent query ++ prompt_tail)
    with ((prompt_head ++ context ++ prompt_mid) ++ processContent query ++ prompt_tail)
    by (by rewrite <- !app_assoc).
  rewrite drop_app_length.
  assert (Htail : exists r, prompt_tail = 10 :: r)
    by (eexists; vm_compute; reflexivity).
  destruct Htail as [r ->].
  apply first_line_stop, processContent_no_line_break.
Qed.

(** X9: the sheet service hands the row to the client exactly once and is
    transparent to the outcome: its caller gets the client's response, or
    the client's error thrown again. *)
Theorem addUnresolvedQuery_outcome (this : SheetDBService) (data : Escalation.t)
    (w : World) :
  addUnresolvedQuery this data w
  = (create (client this) data,
     {| agent := agent w; created := created w ++ [data] |}).
Proof.
  unfold addUnresolvedQuery, try_catch, bind, client_create, ret, throw.
  by destruct (create (client this) data).
Qed.

End ChatbotMore.

(** ** More on the handlers and the Dialogflow webhook *)

Section WebhookMore.

Lemma handleFallbackIntent_run_throw bot userQuery w error :
  queryPDF bot userQuery = Throw error ->
  handleFallbackIntent bot userQuery w =
  (Ok tt,
   {| agent :=
        {| intent := intent (agent w);
           query := query (agent w);
           parameters := parameters (agent w);
           contexts := contexts (agent w);
           responses :=
             responses (agent w) ++
             [lit "Sorry, I couldn't process your request right now."] |};
      created := created w |}).
Proof.
  intros H. unfold handleFallbackIntent, try_catch, bind, await. by rewrite H.
Qed.

(** X10: the fallback handler never throws and never writes to the sheet:
    whatever the answering path does, it queues exactly one message; when
    the answering path throws, for whatever reason, that message is the
    processing apology and the context store is left alone. *)
Theorem handleFallbackIntent_always_replies (bot : PDFChatbot)
    (userQuery : jsval) (w : World) :
  exists w' message,
    handleFallbackIntent bot userQuery w = (Ok tt, w') /\
    responses (agent w') = responses (agent w) ++ [message] /\
    created w' = created w /\
    (forall error,
       queryPDF bot userQuery = Throw error ->
       message = lit "Sorry, I couldn't process your request right now." /\
       contexts (agent w') = contexts (agent w)).
Proof.
  destruct (queryPDF bot userQuery) as [result|error] eqn:Hq.
  - rewrite (handleFallbackIntent_run bot userQuery w result Hq).
    eexists. eexists. split; [reflexivity |].
    split; [reflexivity |]. split; [reflexivity | discriminate].
  - rewrite (handleFallbackIntent_run_throw bot userQuery w error Hq).
    eexists. eexists. split; [reflexivity |].
    split; [reflexivity |]. split; [reflexivity |]. by intros e _.
Qed.

Lemma handleFallbackIntent_always_replies_witness :
  exists w',
    handleFallbackIntent Fixtures.retrieval_failing_bot (JStr (lit "hours?"))
      Sample.fresh_world = (Ok tt, w') /\
    responses (agent w') = [lit "Sorry, I couldn't process your request right now."] /\
    contexts (agent w') = contexts Sample.fresh_agent /\
    created w' = [].
Proof.
  destruct (handleFallbackIntent_always_replies Fixtures.retrieval_failing_bot
              (JStr (lit "hours?")) Sample.fresh_world)
    as (w' & message & Hrun & Hreply & Hrows & Hthrow).
  destruct (Hthrow (lit "fetch failed") eq_refl) as [-> Hc].
  exists w'. split; [exact Hrun |]. split; [exact Hreply |].
  split; [exact Hc | exact Hrows].
Defined.

(** X11: escalation and the contact-info turn compose: once the fallback
    handler has stored the awaiting context for a non-empty query, any later
    agent that still carries that context's parameters, whatever lifespan is
    left, makes the contact-info handler send a record whose query is that
    original query, not the contact-info turn's own text. *)
Theorem escalation_then_contact (bot : PDFChatbot) (userQuery : jsval)
    (w : World) (result : QueryResult) (svc : SheetDBService)
    (now : jsstring) (w2 : World) (c1 c2 : Context.t) :
  queryPDF bot userQuery = Ok result ->
  occurs_in INSUFFICIENT_MARKER (answer result) ->
  truthy userQuery = true ->
  contexts (agent (snd (handleFallbackIntent bot userQuery w)))
    !! "awaiting_user_info" = Some c1 ->
  contexts (agent w2) !! "awaiting_user_info" = Some c2 ->
  Context.parameters c2 = Context.parameters c1 ->
  exists w3,
    handleUserInfoIntent svc now w2 = (Ok tt, w3) /\
    created w3 = created w2 ++
      [ {| Escalation.name := parameter (agent w2) "name";
           Escalation.email := parameter (agent w2) "email";
           Escalation.query := userQuery;
           Escalation.timestamp := now |} ].
Proof.
  intros Hq Hmark Htruthy Hc1 Hc2 Hparams.
  rewrite (handleFallbackIntent_run bot userQuery w result Hq) in Hc1.
  cbn [snd agent contexts] in Hc1.
  apply includes_spec in Hmark. rewrite Hmark, lookup_insert_eq in Hc1.
  injection Hc1 as <-. cbn [Context.parameters] in Hparams.
  eexists. split; [apply handleUserInfoIntent_run |].
  cbn [created]. do 2 f_equal. unfold escalation_record. f_equal.
  unfold stored_original_query, getContext. rewrite Hc2, Hparams.
  rewrite lookup_singleton_eq.
  change (default JUndefined (Some userQuery)) with userQuery.
  unfold or_else. by rewrite Htruthy.
Qed.

Lemma escalation_then_contact_witness :
  exists w3,
    handleUserInfoIntent Sample.failing_sheet Sample.NOW
      {| agent :=
           {| intent := "Collect_User_Info";
              query := JStr (lit "ana@x.com");
              parameters := {[ "email" := JStr (lit "ana@x.com") ]};
              contexts :=
                {[ "awaiting_user_info" :=
                     {| Context.name := "awaiting_user_info";
                        Context.lifespan := 1;
                        Context.parameters :=
                          Some {[ "original_query" :=
                                    JStr (lit "What is your refund policy?") ]} |} ]};
              responses := [] |};
         created := [] |}
    = (Ok tt, w3) /\
    created w3 =
      [ {| Escalation.name := JUndefined;
           Escalation.email := JStr (lit "ana@x.com");
           Escalation.query := JStr (lit "What is your refund policy?");
           Escalation.timestamp := Sample.NOW |} ].
Proof.
  refine (escalation_then_contact Sample.refusing_bot
            (JStr (lit "What is your refund policy?")) Sample.fresh_world
            {| answer := lit "I do not have enough information to answer this question. Please ask a different question related to the available content." |}
            Sample.failing_sheet Sample.NOW _
            {| Context.name := "awaiting_user_info";
               Context.lifespan := 2;
               Context.parameters :=
                 Some {[ "original_query" := JStr (lit "What is your refund policy?") ]} |}
            {| Context.name := "awaiting_user_info";
               Context.lifespan := 1;
               Context.parameters :=
                 Some {[ "original_query" := JStr (lit "What is your refund policy?") ]} |}
            _ _ _ _ _ _).
  - vm_compute. reflexivity.
  - apply includes_spec. vm_compute. reflexivity.
  - reflexivity.
  - vm_compute. reflexivity.
  - vm_compute. reflexivity.
  - reflexivity.
Defined.

Lemma intentMap_cases bot svc userQuery now (name : string) :
  intentMap bot svc userQuery now !! name =
  if decide ("Collect_User_Info" = name) then Some (handleUserInfoIntent svc now)
  else if decide ("PDF_Query_Intent" = name) then Some (handleFallbackIntent bot userQuery)
  else if decide ("Default Fallback Intent" = name)
       then Some (handleFallbackIntent bot userQuery)
  else if decide ("Default Welcome Intent" = name) then Some handleWelcomeIntent
  else None.
Proof. unfold intentMap. by rewrite !lookup_insert, lookup_empty. Qed.

Lemma one_reply_welcome : one_reply handleWelcomeIntent.
Proof.
  intros w. eexists _, _, []. unfold handleWelcomeIntent, agent_add.
  split; [reflexivity |]. cbn [agent intent query parameters responses contexts created].
  rewrite app_nil_r. repeat (split; [done |]). cbn. lia.
Qed.

Lemma one_reply_fallback bot userQuery : one_reply (handleFallbackIntent bot userQuery).
Proof.
  intros w. destruct (queryPDF bot userQuery) as [result|error] eqn:Hq.
  - rewrite (handleFallbackIntent_run bot userQuery w result Hq).
    eexists _, _, []. split; [reflexivity |].
    cbn [agent intent query parameters responses contexts created].
    rewrite app_nil_r. do 4 (split; [reflexivity |]).
    split; [| split; [reflexivity | cbn; lia]].
    intros k Hk. destruct (includes (answer result) INSUFFICIENT_MARKER); [| done].
    by rewrite lookup_insert_ne.
  - rewrite (handleFallbackIntent_run_throw bot userQuery w error Hq).
    eexists _, _, []. split; [reflexivity |].
    cbn [agent intent query parameters responses contexts created].
    rewrite app_nil_r. repeat (split; [done |]). cbn. lia.
Qed.

Lemma one_reply_userinfo svc now : one_reply (handleUserInfoIntent svc now).
Proof.
  intros w. rewrite handleUserInfoIntent_run.
  eexists _, _, [_]. split; [reflexivity |].
  cbn [agent intent query parameters responses contexts created].
  repeat (split; [done |]). cbn. lia.
Qed.

Lemma intentMap_one_reply bot svc userQuery now name h :
  intentMap bot svc userQuery now !! name = Some h -> one_reply h.
Proof.
  rewrite intentMap_cases. repeat case_decide; intros [= <-];
    auto using one_reply_welcome, one_reply_fallback, one_reply_userinfo.
Qed.

Lemma intentMap_registered bot svc userQuery now name :
  is_Some (intentMap bot svc userQuery now !! name) <-> registered name.
Proof.
  rewrite intentMap_cases. unfold registered. split.
  - intros Hsome. repeat case_decide; subst; auto 6.
    by destruct Hsome as [? [=]].
  - intros [<-|[<-|[<-|<-]]]; repeat case_decide; try congruence;
      exact (ex_intro _ _ eq_refl).
Qed.

Lemma dialogflow_webhook_serving g bot svc now req rows :
  pdfChatbot g = Some bot ->
  sheetdbService g = Some svc ->
  dialogflow_webhook g now req rows =
  (fst (handleRequest (intentMap bot svc (userQuery_of req) now)
                      {| agent := new_WebhookClient req; created := rows |}),
   created (snd (handleRequest (intentMap bot svc (userQuery_of req) now)
                               {| agent := new_WebhookClient req; created := rows |}))).
Proof.
  intros Hb Hs. unfold dialogflow_webhook. rewrite Hb, Hs.
  change (or_else (or_else (query (new_WebhookClient req)) (body_queryText req))
                  (JStr (lit "No query found")))
    with (userQuery_of req).
  by destruct (handleRequest _ _).
Qed.

Lemma handleRequest_some (handlers : gmap string (M unit)) (w : World) (h : M unit) :
  handlers !! intent (agent w) = Some h ->
  handleRequest handlers w =
  match h w with
  | (Ok _, w') => (Fulfilled (agent w'), w')
  | (Throw error, w') => (Rejected error, w')
  end.
Proof. unfold handleRequest, M in *. by intros ->. Qed.

Lemma handleRequest_none (handlers : gmap string (M unit)) (w : World) :
  handlers !! intent (agent w) = None ->
  handleRequest handlers w = (NoHandler, w).
Proof. unfold handleRequest, M in *. by intros ->. Qed.

Lemma userQuery_of_truthy req : truthy (userQuery_of req) = true.
Proof.
  unfold userQuery_of, or_else.
  destruct (truthy (body_queryText req)) eqn:H; cbv iota; rewrite H;
    [exact H | reflexivity].
Qed.

(** X12: with both services up, the webhook answers a registered intent by
    a fulfilment that carries exactly one message and the request's intent,
    query and parameters; for any other intent no handler runs and nothing
    is sent to the sheet. *)
Theorem webhook_reply_by_intent (g : Globals) (bot : PDFChatbot)
    (svc : SheetDBService) (now : jsstring) (req : Request)
    (rows : list Escalation.t) :
  pdfChatbot g = Some bot ->
  sheetdbService g = Some svc ->
  (registered (body_intent req) ->
   exists a message,
     fst (dialogflow_webhook g now req rows) = Fulfilled a /\
     responses a = [message] /\
     intent a = body_intent req /\
     query a = body_queryText req /\
     parameters a = body_parameters req) /\
  (~ registered (body_intent req) ->
   dialogflow_webhook g now req rows = (NoHandler, rows)).
Proof.
  intros Hb Hs. rewrite (dialogflow_webhook_serving g bot svc now req rows Hb Hs).
  set (w0 := {| agent := new_WebhookClient req; created := rows |}).
  split; intros Hreg.
  - apply (intentMap_registered bot svc (userQuery_of req) now) in Hreg as [h Hh].
    rewrite (handleRequest_some _ w0 h Hh).
    destruct (intentMap_one_reply _ _ _ _ _ _ Hh w0)
      as (w' & message & extra & -> & Hi & Hq & Hp & Hr & _).
    exists (agent w'), message. by cbn [fst].
  - rewrite (handleRequest_none _ w0); [reflexivity |].
    destruct (intentMap _ _ _ _ !! intent (agent w0)) as [h|] eqn:Hh; [| reflexivity].
    exfalso. apply Hreg.
    apply (intentMap_registered bot svc (userQuery_of req) now).
    exists h. exact Hh.
Qed.

Lemma webhook_reply_by_intent_witness :
  (exists a message,
     fst (dialogflow_webhook
            {| pdfChatbot := Some Sample.answering_bot;
               sheetdbService := Some Sample.accepting_sheet |}
            Sample.NOW
            {| body_intent := "PDF_Query_Intent";
               body_queryText := JStr (lit "hours?");
               body_parameters := ∅;
               body_outputContexts := ∅ |} []) = Fulfilled a /\
     responses a = [message]) /\
  dialogflow_webhook
    {| pdfChatbot := Some Sample.answering_bot;
       sheetdbService := Some Sample.accepting_sheet |}
    Sample.NOW
    {| body_intent := "Cancel_Order";
       body_queryText := JStr (lit "cancel");
       body_parameters := ∅;
       body_outputContexts := ∅ |} []
  = (NoHandler, []).
Proof.
  split.
  - destruct (webhook_reply_by_intent
                {| pdfChatbot := Some Sample.answering_bot;
                   sheetdbService := Some Sample.accepting_sheet |}
                Sample.answering_bot Sample.accepting_sheet Sample.NOW
                {| body_intent := "PDF_Query_Intent";
                   body_queryText := JStr (lit "hours?");
                   body_parameters := ∅;
                   body_outputContexts := ∅ |} [] eq_refl eq_refl)
      as [Hyes _].
    destruct Hyes as (a & message & Ha & Hm & _).
    + right. right. left. reflexivity.
    + by exists a, message.
  - apply (webhook_reply_by_intent _ Sample.answering_bot Sample.accepting_sheet);
      [reflexivity | reflexivity |].
    intros [H|[H|[H|H]]]; discriminate H.
Defined.

Lemma created_fallback bot userQuery w :
  created (snd (handleFallbackIntent bot userQuery w)) = created w.
Proof.
  destruct (queryPDF bot userQuery) as [result|error] eqn:Hq.
  - by rewrite (handleFallbackIntent_run bot userQuery w result Hq).
  - by rewrite (handleFallbackIntent_run_throw bot userQuery w error Hq).
Qed.

(** X13: the webhook only ever appends to what the sheet client has been
    sent, at most one row per call, and none at all unless the intent is the
    contact-info intent. *)
Theorem webhook_rows_append_only (g : Globals) (now : jsstring) (req : Request)
    (rows : list Escalation.t) :
  exists extra,
    snd (dialogflow_webhook g now req rows) = rows ++ extra /\
    (length extra <= 1)%nat /\
    (body_intent req <> "Collect_User_Info" -> extra = []).
Proof.
  destruct (pdfChatbot g) as [bot|] eqn:Hb;
    [destruct (sheetdbService g) as [svc|] eqn:Hs |].
  - rewrite (dialogflow_webhook_serving g bot svc now req rows Hb Hs).
    cbn [snd].
    set (w0 := {| agent := new_WebhookClient req; created := rows |}).
    pose proof (intentMap_cases bot svc (userQuery_of req) now (intent (agent w0)))
      as Hcases.
    repeat case_decide.
    + rewrite (handleRequest_some _ w0 _ Hcases).
      destruct (one_reply_userinfo svc now w0)
        as (w' & m & extra & -> & _ & _ & _ & _ & _ & Hc & Hl).
      exists extra. cbn [snd]. split; [exact Hc |]. split; [exact Hl |].
      intros Hne. exfalso. apply Hne. by symmetry.
    + rewrite (handleRequest_some _ w0 _ Hcases).
      exists []. pose proof (created_fallback bot (userQuery_of req) w0) as Hsame.
      destruct (handleFallbackIntent bot (userQuery_of req) w0) as [[u|e] w'];
        cbn [snd] in Hsame |- *; rewrite Hsame, app_nil_r; repeat split; cbn; lia.
    + rewrite (handleRequest_some _ w0 _ Hcases).
      exists []. pose proof (created_fallback bot (userQuery_of req) w0) as Hsame.
      destruct (handleFallbackIntent bot (userQuery_of req) w0) as [[u|e] w'];
        cbn [snd] in Hsame |- *; rewrite Hsame, app_nil_r; repeat split; cbn; lia.
    + rewrite (handleRequest_some _ w0 _ Hcases).
      exists []. cbn. rewrite app_nil_r. repeat split; lia.
    + rewrite (handleRequest_none _ w0 Hcases).
      exists []. cbn. rewrite app_nil_r. repeat split; lia.
  - exists []. unfold dialogflow_webhook. rewrite Hb, Hs. cbn.
    rewrite app_nil_r. repeat split; lia.
  - exists []. unfold dialogflow_webhook. rewrite Hb. cbn.
    rewrite app_nil_r. repeat split; lia.
Qed.

Lemma webhook_rows_append_only_witness :
  snd (dialogflow_webhook
         {| pdfChatbot := Some Sample.refusing_bot;
            sheetdbService := Some Sample.failing_sheet |}
         Sample.NOW
         {| body_intent := "Default Fallback Intent";
            body_queryText := JStr (lit "refund?");
            body_parameters := ∅;
            body_outputContexts := ∅ |}
         [escalation_record Sample.awaiting_agent Sample.NOW])
  = [escalation_record Sample.awaiting_agent Sample.NOW].
Proof.
  destruct (webhook_rows_append_only
              {| pdfChatbot := Some Sample.refusing_bot;
                 sheetdbService := Some Sample.failing_sheet |}
              Sample.NOW
              {| body_intent := "Default Fallback Intent";
                 body_queryText := JStr (lit "refund?");
                 body_parameters := ∅;
                 body_outputContexts := ∅ |}
              [escalation_record Sample.awaiting_agent Sample.NOW])
    as (extra & Hrows & _ & Hnone).
  rewrite Hrows, Hnone; [apply app_nil_r | discriminate].
Defined.

(** X14: a fulfilment carries every context of the request other than the
    awaiting one unchanged: the handlers never drop or overwrite another
    context of the session. *)
Theorem webhook_other_contexts (g : Globals) (now : jsstring) (req : Request)
    (rows : list Escalation.t) (a : WebhookClient) (k : string) :
  fst (dialogflow_webhook g now req rows) = Fulfilled a ->
  k <> "awaiting_user_info" ->
  contexts a !! k = body_outputContexts req !! k.
Proof.
  destruct (pdfChatbot g) as [bot|] eqn:Hb;
    [destruct (sheetdbService g) as [svc|] eqn:Hs |].
  - rewrite (dialogflow_webhook_serving g bot svc now req rows Hb Hs).
    cbn [fst].
    set (w0 := {| agent := new_WebhookClient req; created := rows |}).
    destruct (intentMap bot svc (userQuery_of req) now !! intent (agent w0))
      as [h|] eqn:Hh.
    + rewrite (handleRequest_some _ w0 h Hh).
      destruct (intentMap_one_reply _ _ _ _ _ _ Hh w0)
        as (w' & message & extra & -> & _ & _ & _ & _ & Hctx & _).
      cbn [fst]. intros [= <-] Hk. by rewrite Hctx.
    + rewrite (handleRequest_none _ w0 Hh). discriminate.
  - unfold dialogflow_webhook. rewrite Hb, Hs. discriminate.
  - unfold dialogflow_webhook. rewrite Hb. discriminate.
Qed.

Lemma webhook_other_contexts_witness :
  match fst (dialogflow_webhook
               {| pdfChatbot := Some Sample.refusing_bot;
                  sheetdbService := Some Sample.accepting_sheet |}
               Sample.NOW
               {| body_intent := "PDF_Query_Intent";
                  body_queryText := JStr (lit "refund?");
                  body_parameters := ∅;
                  body_outputContexts :=
                    {[ "order_flow" :=
                         {| Context.name := "order_flow";
                            Context.lifespan := 5;
                            Context.parameters := None |} ]} |} []) with
  | Fulfilled a =>
      contexts a !! "order_flow"
      = Some {| Context.name := "order_flow";
                Context.lifespan := 5;
                Context.parameters := None |}
  | _ => False
  end.
Proof.
  destruct (fst (dialogflow_webhook _ _ _ _)) as [code text|a| |error] eqn:Ha;
    try (vm_compute in Ha; discriminate Ha).
  rewrite (webhook_other_contexts _ _ _ _ a "order_flow" Ha); [| discriminate].
  vm_compute. reflexivity.
Defined.

Lemma session_state_none a :
  contexts a !! "awaiting_user_info" = None -> session_state a = Answering.
Proof. unfold session_state. by intros ->. Qed.

(** X15: every awaiting context the webhook creates is well formed: when a
    fallback turn arrives without an awaiting context and is fulfilled, the
    session is afterwards either in Answering or in AwaitingContactInfo with
    two remaining turns and a non-empty original query, the query handed to
    the handler. *)
Theorem webhook_escalation_well_formed (g : Globals) (bot : PDFChatbot)
    (svc : SheetDBService) (now : jsstring) (req : Request)
    (rows : list Escalation.t) (a : WebhookClient) :
  pdfChatbot g = Some bot ->
  sheetdbService g = Some svc ->
  body_intent req = "Default Fallback Intent" \/ body_intent req = "PDF_Query_Intent" ->
  body_outputContexts req !! "awaiting_user_info" = None ->
  fst (dialogflow_webhook g now req rows) = Fulfilled a ->
  match session_state a with
  | Answering => True
  | AwaitingContactInfo originalQuery remainingTurns =>
      originalQuery = userQuery_of req /\
      truthy originalQuery = true /\
      remainingTurns = 2%Z
  end.
Proof.
  intros Hb Hs Hintent Hnone.
  rewrite (dialogflow_webhook_serving g bot svc now req rows Hb Hs). cbn [fst].
  set (w0 := {| agent := new_WebhookClient req; created := rows |}).
  assert (Hh : intentMap bot svc (userQuery_of req) now !! intent (agent w0)
               = Some (handleFallbackIntent bot (userQuery_of req))).
  { rewrite intentMap_cases. cbn [w0 agent new_WebhookClient intent].
    destruct Hintent as [-> | ->]; by repeat case_decide. }
  rewrite (handleRequest_some _ w0 _ Hh).
  destruct (queryPDF bot (userQuery_of req)) as [result|error] eqn:Hq.
  - rewrite (handleFallbackIntent_run bot _ w0 result Hq). cbn [fst agent].
    intros [= <-].
    destruct (includes (answer result) INSUFFICIENT_MARKER).
    + match goal with
      | |- match session_state ?a with _ => _ end =>
          rewrite (session_state_awaiting a _ (lookup_insert_eq _ _ _))
      end; [| reflexivity].
      unfold stored_original_query, getContext. cbn [contexts].
      rewrite lookup_insert_eq. cbn [Context.parameters Context.lifespan].
      rewrite lookup_singleton_eq.
      change (default JUndefined (Some (userQuery_of req))) with (userQuery_of req).
      split; [reflexivity |]. split; [apply userQuery_of_truthy | reflexivity].
    + by rewrite session_state_none.
  - rewrite (handleFallbackIntent_run_throw bot _ w0 error Hq). cbn [fst agent].
    intros [= <-]. by rewrite session_state_none.
Qed.

Lemma webhook_escalation_well_formed_witness :
  match fst (dialogflow_webhook
               {| pdfChatbot := Some Sample.refusing_bot;
                  sheetdbService := Some Sample.accepting_sheet |}
               Sample.NOW
               {| body_intent := "Default Fallback Intent";
                  body_queryText := JStr [];
                  body_parameters := ∅;
                  body_outputContexts := ∅ |} []) with
  | Fulfilled a =>
      match session_state a with
      | Answering => True
      | AwaitingContactInfo originalQuery remainingTurns =>
          truthy originalQuery = true /\ remainingTurns = 2%Z
      end
  | _ => False
  end.
Proof.
  destruct (fst (dialogflow_webhook _ _ _ _)) as [code text|a| |error] eqn:Ha;
    try (vm_compute in Ha; discriminate Ha).
  pose proof (webhook_escalation_well_formed
                {| pdfChatbot := Some Sample.refusing_bot;
                   sheetdbService := Some Sample.accepting_sheet |}
                Sample.refusing_bot Sample.accepting_sheet Sample.NOW
                {| body_intent := "Default Fallback Intent";
                   body_queryText := JStr [];
                   body_parameters := ∅;
                   body_outputContexts := ∅ |} [] a
                eq_refl eq_refl (or_introl eq_refl) eq_refl Ha) as H.
  destruct (session_state a); [exact I |].
  destruct H as (_ & Ht & Hn). by split.
Defined.

End WebhookMore.

(** ** Startup *)

Section StartupFacts.

Import Startup.

Lemma loadAndProcessPDF_Ok (env : Environment) (this this' : PDFChatbot)
    (pdfPath : jsstring) :
  loadAndProcessPDF env this pdfPath = (Ok tt, this') ->
  existsSync env pdfPath = true /\
  exists dataBuffer text splitTexts store,
    readFileSync env pdfPath = Ok dataBuffer /\
    pdf env dataBuffer = Ok text /\
    createDocuments env 1000 200 (processContent text) = Ok splitTexts /\
    fromDocuments env splitTexts = Ok store /\
    this' = {| llm := llm this; vectorStore := Some store |}.
Proof.
  unfold loadAndProcessPDF, rethrow, and_then.
  destruct (existsSync env pdfPath); cbn [negb]; [| discriminate].
  destruct (readFileSync env pdfPath) as [buffer|] eqn:Hr; [| discriminate].
  destruct (pdf env buffer) as [text|] eqn:Hp; [| discriminate].
  destruct (createDocuments env 1000 200 (processContent text)) as [docs|] eqn:Hc;
    [| discriminate].
  destruct (fromDocuments env docs) as [store|] eqn:Hf; [| discriminate].
  intros [= <-]. split; [reflexivity |]. by exists buffer, text, docs, store.
Qed.

Lemma loadAndProcessPDF_Throw (env : Environment) (this this' : PDFChatbot)
    (pdfPath error : jsstring) :
  loadAndProcessPDF env this pdfPath = (Throw error, this') -> this' = this.
Proof.
  unfold loadAndProcessPDF.
  destruct (rethrow _) as [store|e]; [discriminate |]. by intros [= <- <-].
Qed.

(** X16: [loadAndProcessPDF] succeeds exactly when the file exists and the
    read, the parse, the split and the indexing all succeed; the splitter
    is given the normalized text of the PDF with chunk size 1000 and
    overlap 200, and the chatbot afterwards holds the store built from the
    splitter's documents and its model unchanged. *)
Theorem loadAndProcessPDF_success (env : Environment) (this this' : PDFChatbot)
    (pdfPath : jsstring) :
  loadAndProcessPDF env this pdfPath = (Ok tt, this') <->
  existsSync env pdfPath = true /\
  exists dataBuffer text splitTexts store,
    readFileSync env pdfPath = Ok dataBuffer /\
    pdf env dataBuffer = Ok text /\
    createDocuments env 1000 200 (processContent text) = Ok splitTexts /\
    fromDocuments env splitTexts = Ok store /\
    this' = {| llm := llm this; vectorStore := Some store |}.
Proof.
  split; [apply loadAndProcessPDF_Ok |].
  unfold loadAndProcessPDF, rethrow, and_then.
  intros (-> & buffer & text & docs & store & -> & -> & -> & -> & ->).
  reflexivity.
Qed.

Lemma loadAndProcessPDF_success_witness :
  exists store,
    loadAndProcessPDF Fixtures.good_env Sample.unloaded_bot Fixtures.PDF_PATH
    = (Ok tt, {| llm := llm Sample.unloaded_bot; vectorStore := Some store |}) /\
    asRetriever store 4 [] = Ok [ {| pageContent := lit "Office hours 9-5" |} ].
Proof.
  eexists. split.
  - apply loadAndProcessPDF_success. split; [reflexivity |].
    eexists _, _, _, _. repeat split; reflexivity.
  - vm_compute. reflexivity.
Defined.

(** X17: a load that throws leaves the chatbot as it was, so no index is
    ever half built; when the file does not exist the error names the path
    and nothing is read. *)
Theorem loadAndProcessPDF_failure (env : Environment) (this this' : PDFChatbot)
    (pdfPath error : jsstring) :
  loadAndProcessPDF env this pdfPath = (Throw error, this') ->
  this' = this /\
  (existsSync env pdfPath = false ->
   error = lit "PDF file not found at " ++ pdfPath).
Proof.
  unfold loadAndProcessPDF.
  destruct (rethrow _) as [store|e] eqn:Hbuilt; [discriminate |].
  intros [= <- <-]. split; [reflexivity |].
  intros Hmissing. rewrite Hmissing in Hbuilt.
  cbn [negb] in Hbuilt. unfold rethrow in Hbuilt. by injection Hbuilt.
Qed.

Lemma loadAndProcessPDF_failure_witness :
  loadAndProcessPDF Fixtures.no_file_env Sample.unloaded_bot Fixtures.PDF_PATH
  = (Throw (lit "PDF file not found at /app/faqs.pdf"), Sample.unloaded_bot).
Proof.
  destruct (loadAndProcessPDF Fixtures.no_file_env Sample.unloaded_bot
              Fixtures.PDF_PATH) as [[u|error] this'] eqn:Hload.
  - vm_compute in Hload. discriminate Hload.
  - destruct (loadAndProcessPDF_failure _ _ _ _ _ Hload) as [-> Hmsg].
    rewrite (Hmsg eq_refl). reflexivity.
Defined.

(** X18: the startup block either ends the process with code 1 or leaves
    it serving with both globals set and the index built: the serving state
    is the last state of [startup_after], so the webhook's 503 gate is open
    only over a built index. *)
Theorem startup_outcome (env : Environment) (PDF_PATH : jsstring)
    (sheetdbClient : SheetClient) :
  match startup env PDF_PATH sheetdbClient with
  | Serving g =>
      index_built g = true /\
      exists model built,
        g = startup_after 3 model built sheetdbClient /\
        loadAndProcessPDF env {| llm := model; vectorStore := None |} PDF_PATH
        = (Ok tt, {| llm := model; vectorStore := Some built |})
  | Exited code =>
      code = 1%Z /\
      (new_PDFChatbot env = Throw (lit "Missing GEMINI_API_KEY in environment variables") \/
       exists bot error,
         new_PDFChatbot env = Ok bot /\
         loadAndProcessPDF env bot PDF_PATH = (Throw error, bot))
  end.
Proof.
  unfold startup.
  destruct (new_PDFChatbot env) as [bot|error] eqn:Hnew.
  - assert (Hbot : bot = {| llm := llm bot; vectorStore := None |}).
    { unfold new_PDFChatbot in Hnew.
      destruct (GEMINI_API_KEY env) as [[|c key]|]; try discriminate.
      by injection Hnew as <-. }
    destruct (loadAndProcessPDF env bot PDF_PATH) as [[u|e] bot'] eqn:Hload.
    + destruct u.
      pose proof Hload as Hok.
      apply loadAndProcessPDF_Ok in Hok
        as (_ & buffer & text & docs & store & _ & _ & _ & _ & ->).
      split; [reflexivity |]. exists (llm bot), store.
      split; [reflexivity |]. by rewrite <- Hbot.
    + split; [reflexivity |]. right. exists bot, e. split; [reflexivity |].
      by rewrite (loadAndProcessPDF_Throw _ _ _ _ _ Hload) in Hload.
  - split; [reflexivity |]. left.
    unfold new_PDFChatbot in Hnew |- *.
    by destruct (GEMINI_API_KEY env) as [[|c key]|].
Qed.

End StartupFacts.

(** ** Dialogflow integration and the Twilio webhook *)

Section TwilioFacts.

Import Twilio.

Lemma PROJECT_ID_not_empty cfg : PROJECT_ID cfg <> [].
Proof.
  unfold PROJECT_ID. by destruct (DIALOGFLOW_PROJECT_ID cfg) as [[|c id]|].
Qed.

Lemma sendToDialogflow_no_session (cfg : Config) (message : jsval)
    (sessionId : option jsstring) :
  sessionId = None \/ sessionId = Some [] ->
  sendToDialogflow cfg message sessionId = Throw (lit "Session ID is undefined.").
Proof. by intros [-> | ->]. Qed.

Lemma sendToDialogflow_Ok (cfg : Config) (message : jsval)
    (sessionId : option jsstring) (result : option DialogflowResult) :
  sendToDialogflow cfg message sessionId = Ok result ->
  exists c id, sessionId = Some (c :: id).
Proof.
  destruct sessionId as [[|c id]|]; try discriminate. by exists c, id.
Qed.

(** X19: [sendToDialogflow] refuses a missing or empty session id before
    it calls Dialogflow; for any other session id the project-id guard never
    fires (the id falls back to the built-in one), and the outcome is that
    of one [detectIntent] call on the session path of that project and id,
    with the message as text and language [en]. *)
Theorem sendToDialogflow_outcome (cfg : Config) (message : jsval)
    (sessionId : option jsstring) :
  sendToDialogflow cfg message sessionId =
  match sessionId with
  | Some (c :: id) =>
      detectIntent (sessionClient cfg)
        {| session :=
             projectAgentSessionPath (sessionClient cfg)
               (default (lit "simplytr-uutw")
                        (match DIALOGFLOW_PROJECT_ID cfg with
                         | Some [] => None
                         | other => other
                         end))
               (c :: id);
           text := message;
           languageCode := lit "en" |}
  | _ => Throw (lit "Session ID is undefined.")
  end.
Proof.
  unfold sendToDialogflow, rethrow.
  destruct sessionId as [[|c id]|]; try reflexivity.
  pose proof (PROJECT_ID_not_empty cfg) as Hne.
  assert (Hid : PROJECT_ID cfg =
                default (lit "simplytr-uutw")
                        (match DIALOGFLOW_PROJECT_ID cfg with
                         | Some [] => None
                         | other => other
                         end))
    by (unfold PROJECT_ID; by destruct (DIALOGFLOW_PROJECT_ID cfg) as [[|d p]|]).
  rewrite <- Hid.
  destruct (PROJECT_ID cfg) as [|d p]; [done |].
  by destruct (detectIntent _ _).
Qed.

(** X20: the Twilio webhook answers 200 only after it has asked Twilio to
    send exactly one message; that message goes to the sender of the
    request, from the configured number, and its body is never empty: the
    fulfilment text of Dialogflow, or the fixed rephrase request when that
    text is empty or missing. *)
Theorem twilio_webhook_success (cfg : Config) (req : TwilioRequest)
    (sent : list Message) (text : jsstring) :
  fst (twilio_webhook cfg req sent) = Status 200 text ->
  exists result,
    sendToDialogflow cfg (Body req) (From req) = Ok (Some result) /\
    snd (twilio_webhook cfg req sent) =
      sent ++
      [ {| body := or_else (fulfillmentText result)
                           (JStr (lit "Sorry, I didn't understand that. Can you rephrase?"));
           from := TWILIO_WHATSAPP_NUMBER cfg;
           to := From req |} ] /\
    truthy (or_else (fulfillmentText result)
                    (JStr (lit "Sorry, I didn't understand that. Can you rephrase?")))
      = true /\
    (exists c id, From req = Some (c :: id)) /\
    text = lit "Message processed successfully".
Proof.
  unfold twilio_webhook.
  destruct (sendToDialogflow cfg (Body req) (From req)) as [[result|]|e] eqn:Hsend;
    try discriminate.
  destruct (messages_create _ _) eqn:Hcreate; [| discriminate].
  cbn [fst snd]. intros [= <-]. exists result.
  split; [reflexivity |]. split; [reflexivity |]. split.
  - unfold or_else. destruct (truthy (fulfillmentText result)) eqn:Ht; [exact Ht | reflexivity].
  - split; [| reflexivity].
    exact (sendToDialogflow_Ok _ _ _ _ Hsend).
Qed.

Lemma twilio_webhook_success_witness :
  twilio_webhook Fixtures.good_cfg
    {| Body := JStr []; From := Some (lit "whatsapp:+923001234567") |} []
  = (Status 200 (lit "Message processed successfully"),
     [ {| body := JStr (lit "Sorry, I didn't understand that. Can you rephrase?");
          from := Some (lit "whatsapp:+14155238886");
          to := Some (lit "whatsapp:+923001234567") |} ]).
Proof.
  assert (H200 : fst (twilio_webhook Fixtures.good_cfg
                        {| Body := JStr []; From := Some (lit "whatsapp:+923001234567") |} [])
                 = Status 200 (lit "Message processed successfully"))
    by (vm_compute; reflexivity).
  destruct (twilio_webhook_success _ _ _ _ H200)
    as (result & Hsend & Hsent & _ & _ & _).
  rewrite (surjective_pairing (twilio_webhook _ _ _)), H200, Hsent.
  vm_compute in Hsend. injection Hsend as <-. reflexivity.
Defined.

(** X21: when the sender is missing or empty, when Dialogflow throws, or
    when it answers without a query result, the Twilio webhook answers 500
    and asks Twilio to send nothing. *)
Theorem twilio_webhook_no_reply (cfg : Config) (req : TwilioRequest)
    (sent : list Message) :
  From req = None \/ From req = Some [] \/
  (exists error, sendToDialogflow cfg (Body req) (From req) = Throw error) \/
  sendToDialogflow cfg (Body req) (From req) = Ok None ->
  twilio_webhook cfg req sent
  = (Status 500 (lit "Error processing Twilio request"), sent).
Proof.
  intros H. unfold twilio_webhook.
  assert (Hcases : (exists error, sendToDialogflow cfg (Body req) (From req) = Throw error) \/
                   sendToDialogflow cfg (Body req) (From req) = Ok None).
  { destruct H as [H|[H|[H|H]]]; [| | by left | by right];
      left; eexists; apply sendToDialogflow_no_session; auto. }
  by destruct Hcases as [[error ->] | ->].
Qed.

Lemma twilio_webhook_no_reply_witness :
  twilio_webhook Fixtures.good_cfg {| Body := JStr (lit "hi"); From := None |} []
    = (Status 500 (lit "Error processing Twilio request"), []) /\
  twilio_webhook Fixtures.down_cfg
    {| Body := JStr (lit "hi"); From := Some (lit "whatsapp:+923001234567") |} []
    = (Status 500 (lit "Error processing Twilio request"), []).
Proof.
  split.
  - apply twilio_webhook_no_reply. left. reflexivity.
  - apply twilio_webhook_no_reply. right. right. left.
    exists (lit "14 UNAVAILABLE"). reflexivity.
Defined.

End TwilioFacts.

(** ** The variant without the sheet *)

Section LegacyFacts.

Lemma legacy_handleFallbackIntent_run (bot : PDFChatbot) (req : Request) (w : World) :
  Legacy.handleFallbackIntent bot req w =
  (Ok tt,
   {| agent :=
        {| intent := intent (agent w);
           query := query (agent w);
           parameters := parameters (agent w);
           contexts := contexts (agent w);
           responses :=
             responses (agent w) ++
             [match Legacy.queryPDF bot
                      (or_else (or_else (query (agent w)) (body_queryText req))
                               (JStr (lit "No query found"))) with
              | Ok result =>
                  Legacy.text_or (answer result)
                    (lit "Sorry, I couldn't find relevant information.")
              | Throw _ => lit "Sorry, I couldn't process your request right now."
              end] |};
      created := created w |}).
Proof.
  unfold Legacy.handleFallbackIntent, try_catch, bind, await, get_agent.
  by destruct (Legacy.queryPDF bot _).
Qed.

(** X22: the fallback handler of the variant never throws, never touches
    the context store or the sheet, and queues exactly one message, which is
    never empty: the answer itself when the answering path gives a non-empty
    one (an answer holding the insufficient-information marker included: it
    is sent as it is, with no escalation), the no-information text when the
    answer is empty, and the processing apology when the answering path
    throws. *)
Theorem legacy_handleFallbackIntent_reply (bot : PDFChatbot) (req : Request)
    (w : World) :
  exists w' message,
    Legacy.handleFallbackIntent bot req w = (Ok tt, w') /\
    responses (agent w') = responses (agent w) ++ [message] /\
    message =
      match Legacy.queryPDF bot
              (or_else (or_else (query (agent w)) (body_queryText req))
                       (JStr (lit "No query found"))) with
      | Ok result =>
          match answer result with
          | [] => lit "Sorry, I couldn't find relevant information."
          | _ :: _ => answer result
          end
      | Throw _ => lit "Sorry, I couldn't process your request right now."
      end /\
    message <> [] /\
    contexts (agent w') = contexts (agent w) /\
    created w' = created w.
Proof.
  rewrite legacy_handleFallbackIntent_run. eexists _, _.
  split; [reflexivity |]. cbn [agent responses contexts created].
  split; [reflexivity |]. split; [| split; [| by split]].
  - destruct (Legacy.queryPDF bot _) as [result|error]; [| reflexivity].
    unfold Legacy.text_or. by destruct (answer result).
  - destruct (Legacy.queryPDF bot _) as [result|error]; [| discriminate].
    unfold Legacy.text_or. destruct (answer result); discriminate.
Qed.

Lemma legacy_handleFallbackIntent_reply_witness :
  exists w',
    Legacy.handleFallbackIntent Sample.refusing_bot
      {| body_intent := "PDF_Query_Intent";
         body_queryText := JStr (lit "What is your refund policy?");
         body_parameters := ∅;
         body_outputContexts := ∅ |}
      Sample.fresh_world = (Ok tt, w') /\
    responses (agent w') =
      [lit "I do not have enough information to answer this question. Please ask a different question related to the available content."] /\
    contexts (agent w') = ∅.
Proof.
  destruct (legacy_handleFallbackIntent_reply Sample.refusing_bot
              {| body_intent := "PDF_Query_Intent";
                 body_queryText := JStr (lit "What is your refund policy?");
                 body_parameters := ∅;
                 body_outputContexts := ∅ |}
              Sample.fresh_world)
    as (w' & message & Hrun & Hreply & Hmessage & _ & Hctx & _).
  exists w'. split; [exact Hrun |]. split; [| exact Hctx].
  rewrite Hreply, Hmessage. vm_compute. reflexivity.
Defined.

(** X23: the gate of the variant looks at the chatbot only: a fallback
    turn that arrives after the chatbot is constructed and before its PDF is
    loaded is not refused with 503 but fulfilled with the processing
    apology. *)
Theorem legacy_webhook_while_loading (bot : PDFChatbot) (req : Request) :
  vectorStore bot = None ->
  body_intent req = "Default Fallback Intent" \/ body_intent req = "PDF_Query_Intent" ->
  exists a,
    Legacy.dialogflow_webhook (Some bot) req = Fulfilled a /\
    responses a = [lit "Sorry, I couldn't process your request right now."] /\
    contexts a = body_outputContexts req.
Proof.
  intros Hstore Hintent. unfold Legacy.dialogflow_webhook.
  set (w0 := {| agent := new_WebhookClient req; created := [] |}).
  assert (Hh : Legacy.intentMap bot req !! intent (agent w0)
               = Some (Legacy.handleFallbackIntent bot req)).
  { unfold Legacy.intentMap. cbn [w0 agent new_WebhookClient intent].
    destruct Hintent as [-> | ->]; by simplify_map_eq. }
  rewrite (handleRequest_some _ w0 _ Hh), legacy_handleFallbackIntent_run.
  cbn [fst]. eexists. split; [reflexivity |].
  cbn [responses contexts agent w0 new_WebhookClient app].
  unfold Legacy.queryPDF. rewrite Hstore. by split.
Qed.

Lemma legacy_webhook_while_loading_witness :
  exists a,
    Legacy.dialogflow_webhook (Some Sample.unloaded_bot)
      {| body_intent := "PDF_Query_Intent";
         body_queryText := JStr (lit "What are your office hours?");
         body_parameters := ∅;
         body_outputContexts := ∅ |} = Fulfilled a /\
    responses a = [lit "Sorry, I couldn't process your request right now."].
Proof.
  destruct (legacy_webhook_while_loading Sample.unloaded_bot
              {| body_intent := "PDF_Query_Intent";
                 body_queryText := JStr (lit "What are your office hours?");
                 body_parameters := ∅;
                 body_outputContexts := ∅ |} eq_refl (or_intror eq_refl))
    as (a & Ha & Hr & _).
  by exists a.
Defined.

End LegacyFacts.

(** ** The welcome turn *)

Section WelcomeFacts.

(** X24: the welcome intent is stateless: with both services up, the
    webhook answers it with the greeting alone, carries the request's whole
    context store (an awaiting context included) unchanged, sends nothing to
    the sheet, and consults neither the chatbot nor the sheet client. *)
Theorem webhook_welcome_stateless (g : Globals) (bot : PDFChatbot)
    (svc : SheetDBService) (now : jsstring) (req : Request)
    (rows : list Escalation.t) :
  pdfChatbot g = Some bot ->
  sheetdbService g = Some svc ->
  body_intent req = "Default Welcome Intent" ->
  dialogflow_webhook g now req rows =
  (Fulfilled
     {| intent := body_intent req;
        query := body_queryText req;
        parameters := body_parameters req;
        contexts := body_outputContexts req;
        responses := [lit "Hi there! How can I assist you today?"] |},
   rows).
Proof.
  intros Hb Hs Hintent.
  rewrite (dialogflow_webhook_serving g bot svc now req rows Hb Hs).
  set (w0 := {| agent := new_WebhookClient req; created := rows |}).
  assert (Hh : intentMap bot svc (userQuery_of req) now !! intent (agent w0)
               = Some handleWelcomeIntent).
  { rewrite intentMap_cases. cbn [w0 agent new_WebhookClient intent].
    rewrite Hintent. by repeat case_decide. }
  by rewrite (handleRequest_some _ w0 _ Hh).
Qed.

Lemma webhook_welcome_stateless_witness :
  dialogflow_webhook
    {| pdfChatbot := Some Fixtures.model_failing_bot;
       sheetdbService := Some Sample.failing_sheet |}
    Sample.NOW
    {| body_intent := "Default Welcome Intent";
       body_queryText := JStr (lit "hello");
       body_parameters := ∅;
       body_outputContexts := contexts Sample.awaiting_agent |} []
  = (Fulfilled
       {| intent := "Default Welcome Intent";
          query := JStr (lit "hello");
          parameters := ∅;
          contexts := contexts Sample.awaiting_agent;
          responses := [lit "Hi there! How can I assist you today?"] |},
     []).
Proof.
  apply (webhook_welcome_stateless _ Fixtures.model_failing_bot Sample.failing_sheet);
    reflexivity.
Defined.

End WelcomeFacts.
